(** * erc4626-deposit: the [deposit] transaction builder of [index.ts]

    A shallow embedding of [deposit] and of the two capabilities it
    consumes (the chain client and the call encoder), followed by the
    properties of the validation pipeline. *)

From Stdlib Require Import ZArith List String Ascii Bool Lia.
Import ListNotations.
Open Scope string_scope.
Open Scope Z_scope.

(** ** Hex strings

    Addresses and call data are values of the TypeScript type
    [`0x${string}`]: plain strings that start with ["0x"].  The
    operations below are the ones the call encoder applies to them. *)

Module Hex.

Definition Hex := string.

Definition digit (n : Z) : ascii :=
  match n with
  | 0 => "0" | 1 => "1" | 2 => "2" | 3 => "3" | 4 => "4"
  | 5 => "5" | 6 => "6" | 7 => "7" | 8 => "8" | 9 => "9"
  | 10 => "a" | 11 => "b" | 12 => "c" | 13 => "d" | 14 => "e"
  | _ => "f"
  end%char.

Definition of_byte (b : Z) : string :=
  String (digit (Z.shiftr b 4)) (String (digit (Z.land b 15)) EmptyString).

Fixpoint of_bytes (bs : list Z) : string :=
  match bs with
  | [] => EmptyString
  | b :: bs' => of_byte b ++ of_bytes bs'
  end.

(** The [n] big-endian base-256 digits of [v]. *)
Fixpoint be_bytes (n : nat) (v : Z) : list Z :=
  match n with
  | O => []
  | S n' => be_bytes n' (Z.shiftr v 8) ++ [Z.land v 255]
  end.

(** The number a list of big-endian base-256 digits stands for. *)
Definition be_value (bs : list Z) : Z :=
  fold_left (fun acc b => 256 * acc + b) bs 0.

Definition is_digit (c : ascii) : bool :=
  let n := Z.of_N (N_of_ascii c) in
  ((48 <=? n) && (n <=? 57)) || ((97 <=? n) && (n <=? 102))
  || ((65 <=? n) && (n <=? 70)).

Definition lower (c : ascii) : ascii :=
  let n := N_of_ascii c in
  if ((65 <=? n) && (n <=? 90))%N then ascii_of_N (n + 32) else c.

Definition upper (c : ascii) : ascii :=
  let n := N_of_ascii c in
  if ((97 <=? n) && (n <=? 122))%N then ascii_of_N (n - 32) else c.

Fixpoint toLowerCase (s : string) : string :=
  match s with
  | EmptyString => EmptyString
  | String c s' => String (lower c) (toLowerCase s')
  end.

Fixpoint all_digits (s : string) : bool :=
  match s with
  | EmptyString => true
  | String c s' => is_digit c && all_digits s'
  end.

Fixpoint repeat_zero (n : nat) : string :=
  match n with
  | O => EmptyString
  | S n' => String "0"%char (repeat_zero n')
  end.

(** [padStart(width, "0")] on the digits of a hex string. *)
Definition padStart (width : nat) (s : string) : string :=
  repeat_zero (width - String.length s) ++ s.

Fixpoint bytes_of_string (s : string) : list Z :=
  match s with
  | EmptyString => []
  | String c s' => Z.of_N (N_of_ascii c) :: bytes_of_string s'
  end.

End Hex.

(** ** Keccak-256

    Modelled from the spec: the hash from which the call-encoding
    convention derives the 4-byte selector of a function signature (and
    the mixed-case checksum of an address); the library that computes
    it is not part of the repository's sources.  Lanes are 64-bit words
    held in [Z]; the state is the list of its 25 lanes, lane [(x, y)]
    at index [x + 5 * y]. *)

Module Keccak.

Definition mask64 : Z := 0xFFFFFFFFFFFFFFFF.

Definition rotl64 (x : Z) (n : Z) : Z :=
  Z.land (Z.lor (Z.shiftl x n) (Z.shiftr x (64 - n))) mask64.

Definition not64 (x : Z) : Z := Z.lxor x mask64.

Definition lane (st : list Z) (x y : nat) : Z :=
  nth ((x mod 5) + 5 * (y mod 5)) st 0.

Definition build (f : nat -> nat -> Z) : list Z :=
  flat_map (fun y => map (fun x => f x y) (seq 0 5)) (seq 0 5).

Definition rotation_offsets : list Z :=
  [ 0;  1; 62; 28; 27;
   36; 44;  6; 55; 20;
    3; 10; 43; 25; 39;
   41; 45; 15; 21;  8;
   18;  2; 61; 56; 14].

Definition round_constants : list Z :=
  [0x0000000000000001; 0x0000000000008082; 0x800000000000808A;
   0x8000000080008000; 0x000000000000808B; 0x0000000080000001;
   0x8000000080008081; 0x8000000000008009; 0x000000000000008A;
   0x0000000000000088; 0x0000000080008009; 0x000000008000000A;
   0x000000008000808B; 0x800000000000008B; 0x8000000000008089;
   0x8000000000008003; 0x8000000000008002; 0x8000000000000080;
   0x000000000000800A; 0x800000008000000A; 0x8000000080008081;
   0x8000000000008080; 0x0000000080000001; 0x8000000080008008].

Definition theta (st : list Z) : list Z :=
  let C x := fold_left Z.lxor (map (lane st x) (seq 0 5)) 0 in
  let D x := Z.lxor (C (x + 4)%nat) (rotl64 (C (x + 1)%nat) 1) in
  build (fun x y => Z.lxor (lane st x y) (D x)).

(** [rho] and [pi] together: the lane at [(x, y)] of the result is the
    rotated lane that [pi] moves there, the one at [(x + 3 y, x)]. *)
Definition rho_pi (st : list Z) : list Z :=
  build (fun x y =>
           let x0 := ((x + 3 * y) mod 5)%nat in
           let y0 := x in
           rotl64 (lane st x0 y0) (nth (x0 + 5 * y0) rotation_offsets 0)).

Definition chi (st : list Z) : list Z :=
  build (fun x y =>
           Z.lxor (lane st x y)
                  (Z.land (not64 (lane st (x + 1) y)) (lane st (x + 2) y))).

Definition iota (rc : Z) (st : list Z) : list Z :=
  match st with
  | [] => []
  | a :: st' => Z.lxor a rc :: st'
  end.

Definition round (st : list Z) (rc : Z) : list Z :=
  iota rc (chi (rho_pi (theta st))).

Definition keccak_f (st : list Z) : list Z :=
  fold_left round round_constants st.

(** Little-endian lanes of a block of bytes. *)
Fixpoint le_lane (bs : list Z) : Z :=
  match bs with
  | [] => 0
  | b :: bs' => Z.lor b (Z.shiftl (le_lane bs') 8)
  end.

Fixpoint lanes_of (n : nat) (bs : list Z) : list Z :=
  match n with
  | O => []
  | S n' => le_lane (firstn 8 bs) :: lanes_of n' (skipn 8 bs)
  end.

Fixpoint bytes_of_lane (n : nat) (l : Z) : list Z :=
  match n with
  | O => []
  | S n' => Z.land l 255 :: bytes_of_lane n' (Z.shiftr l 8)
  end.

Definition rate : nat := 136.

(** Keccak's multi-rate padding (first byte [0x01], last byte [0x80]). *)
Definition pad (msg : list Z) : list Z :=
  let q := (rate - (List.length msg mod rate))%nat in
  match q with
  | 1%nat => msg ++ [0x81]
  | _ => msg ++ [0x01] ++ repeat 0 (q - 2) ++ [0x80]
  end.

Fixpoint xor_lanes (st blk : list Z) : list Z :=
  match st, blk with
  | a :: st', b :: blk' => Z.lxor a b :: xor_lanes st' blk'
  | _, _ => st
  end.

Fixpoint absorb (blocks : nat) (msg : list Z) (st : list Z) : list Z :=
  match blocks with
  | O => st
  | S n =>
      absorb n (skipn rate msg)
             (keccak_f (xor_lanes st (lanes_of 17 (firstn rate msg))))
  end.

(** Modelled from the spec: the 32 bytes of the Keccak-256 digest of a
    list of bytes. *)
Definition keccak256 (msg : list Z) : list Z :=
  let padded := pad msg in
  let st := absorb (List.length padded / rate) padded (repeat 0 25) in
  flat_map (bytes_of_lane 8) (firstn 4 st).

End Keccak.


Abbreviation Hex := Hex.Hex.

(** ** ABI descriptions

    The entries of [ERC20_ABI] and [ERC4626_ABI] are kept as the object
    literals of [index.ts]: names and Solidity types are strings. *)

Module AbiParameter.
Record AbiParameter := { name : string; type : string }.
End AbiParameter.
Abbreviation AbiParameter := AbiParameter.AbiParameter.

Module AbiFunction.
Record AbiFunction := {
  name : string;
  type : string;
  stateMutability : string;
  inputs : list AbiParameter;
  outputs : list AbiParameter
}.
End AbiFunction.
Abbreviation AbiFunction := AbiFunction.AbiFunction.

Definition Abi := list AbiFunction.

Definition ERC20_ABI : Abi :=
  [ {| AbiFunction.name := "balanceOf";
       AbiFunction.type := "function";
       AbiFunction.stateMutability := "view";
       AbiFunction.inputs :=
         [ {| AbiParameter.name := "account"; AbiParameter.type := "address" |} ];
       AbiFunction.outputs :=
         [ {| AbiParameter.name := EmptyString; AbiParameter.type := "uint256" |} ] |};
    {| AbiFunction.name := "allowance";
       AbiFunction.type := "function";
       AbiFunction.stateMutability := "view";
       AbiFunction.inputs :=
         [ {| AbiParameter.name := "owner"; AbiParameter.type := "address" |};
           {| AbiParameter.name := "spender"; AbiParameter.type := "address" |} ];
       AbiFunction.outputs :=
         [ {| AbiParameter.name := EmptyString; AbiParameter.type := "uint256" |} ] |} ].

Definition ERC4626_ABI : Abi :=
  [ {| AbiFunction.name := "asset";
       AbiFunction.type := "function";
       AbiFunction.stateMutability := "view";
       AbiFunction.inputs := [];
       AbiFunction.outputs :=
         [ {| AbiParameter.name := EmptyString; AbiParameter.type := "address" |} ] |};
    {| AbiFunction.name := "maxDeposit";
       AbiFunction.type := "function";
       AbiFunction.stateMutability := "view";
       AbiFunction.inputs :=
         [ {| AbiParameter.name := "receiver"; AbiParameter.type := "address" |} ];
       AbiFunction.outputs :=
         [ {| AbiParameter.name := EmptyString; AbiParameter.type := "uint256" |} ] |};
    {| AbiFunction.name := "deposit";
       AbiFunction.type := "function";
       AbiFunction.stateMutability := "nonpayable";
       AbiFunction.inputs :=
         [ {| AbiParameter.name := "assets"; AbiParameter.type := "uint256" |};
           {| AbiParameter.name := "receiver"; AbiParameter.type := "address" |} ];
       AbiFunction.outputs :=
         [ {| AbiParameter.name := "shares"; AbiParameter.type := "uint256" |} ] |} ].

(** ** Values that cross the client and encoder interfaces

    A [bigint] is an unbounded integer, hence [Z]; an address is a hex
    string. *)

Inductive Value : Type :=
| VAddress (a : Hex)
| VBigint (n : Z)
| VUndefined.

(** The Solidity types that occur in the two ABIs, and the TypeScript
    type a value of each is decoded to. *)
Inductive SolType : Type := TAddress | TUint256 | TOther.

Definition parseType (ty : string) : SolType :=
  if (ty =? "address")%string then TAddress
  else if (ty =? "uint256")%string then TUint256
  else TOther.

Definition denote (t : SolType) : Type :=
  match t with
  | TAddress => Hex
  | TUint256 => Z
  | TOther => unit
  end.

Definition getAbiItem (abi : Abi) (functionName : string) : option AbiFunction :=
  find (fun f => (AbiFunction.name f =? functionName)%string) abi.

Definition outputType (abi : Abi) (functionName : string) : SolType :=
  match getAbiItem abi functionName with
  | Some f =>
      match AbiFunction.outputs f with
      | [o] => parseType (AbiParameter.type o)
      | _ => TOther
      end
  | None => TOther
  end.

Definition toValue (t : SolType) : denote t -> Value :=
  match t with
  | TAddress => VAddress
  | TUint256 => VBigint
  | TOther => fun _ => VUndefined
  end.

Definition decode (t : SolType) (v : Value) : option (denote t) :=
  match t return option (denote t) with
  | TAddress => match v with VAddress a => Some a | _ => None end
  | TUint256 => match v with VBigint n => Some n | _ => None end
  | TOther => Some tt
  end.

(** ** Promises

    An asynchronous computation runs against the world behind the
    client (chain and transport, of an arbitrary type [World]) and
    settles: it is fulfilled with a value or rejected with the thrown
    value.  [deposit] has no [try]/[catch], so a rejection of an
    awaited promise rejects the whole call: that is [bind]. *)

Inductive Settled (Err A : Type) : Type :=
| Fulfilled (a : A)
| Rejected (e : Err).
Arguments Fulfilled {Err A} a.
Arguments Rejected {Err A} e.

Definition Promise (World Err A : Type) : Type := World -> Settled Err A * World.

Definition resolve {World Err A} (a : A) : Promise World Err A :=
  fun w => (Fulfilled a, w).

Definition throw {World Err A} (e : Err) : Promise World Err A :=
  fun w => (Rejected e, w).

Definition bind {World Err A B}
  (m : Promise World Err A) (k : A -> Promise World Err B) : Promise World Err B :=
  fun w =>
    match m w with
    | (Fulfilled a, w') => k a w'
    | (Rejected e, w') => (Rejected e, w')
    end.

Notation "x <- m ;; k" := (bind m (fun x => k))
  (at level 61, m at next level, right associativity).

(** ** The client *)

Module ReadContract.
Record Parameters := {
  address : Hex;
  abi : Abi;
  functionName : string;
  args : list Value
}.
(** Modelled from the spec: a read decodes its single return value as
    an address or a 256-bit unsigned integer, depending on the queried
    function: the client types the result by the output of the function
    named in the ABI passed to it.  The casts [as bigint] and
    [as `0x${string}`] of [deposit] restate these types. *)
Definition ReturnType (p : Parameters) : Type :=
  denote (outputType (abi p) (functionName p)).
End ReadContract.

Module EstimateGas.
Record Parameters := {
  account : Hex;
  to : Hex;
  data : Hex;
  value : Z
}.
End EstimateGas.

(** Modelled from the spec: the Chain Reader, the part of the imported
    type [PublicClient] that [deposit] uses: read-only contract calls
    and gas estimation, each of which may fail.  [RpcError] is the type
    of whatever the client rejects with. *)
Record PublicClient (World RpcError : Type) := {
  readContract :
    forall p : ReadContract.Parameters,
      Promise World RpcError (ReadContract.ReturnType p);
  estimateGas : EstimateGas.Parameters -> Promise World RpcError Z
}.
Arguments readContract {World RpcError} _ p.
Arguments estimateGas {World RpcError} _ _.

(** ** The call encoder *)

Module Encoder.

(** Modelled from the spec: what the encoder throws on a call that is not
    well typed ("a programming error, not a runtime condition"). *)
Inductive AbiError : Type :=
| AbiFunctionNotFoundError
| AbiEncodingLengthMismatchError
| InvalidAbiEncodingTypeError
| IntegerOutOfRangeError
| InvalidAddressError.

(** Modelled from the spec: the canonical signature of a function, its
    name followed by the comma-separated types of its inputs (the
    encoder's library is not part of the repository's sources). *)
Definition formatAbiItem (f : AbiFunction) : string :=
  AbiFunction.name f ++ "("
    ++ String.concat "," (map AbiParameter.type (AbiFunction.inputs f)) ++ ")".

(** Modelled from the spec: the 4-byte selector derived from the
    canonical signature, the first four bytes of its Keccak-256
    digest. *)
Definition toFunctionSelector (signature : string) : Hex :=
  "0x" ++ Hex.of_bytes
            (firstn 4 (Keccak.keccak256 (Hex.bytes_of_string signature))).

Fixpoint nibbles (bs : list Z) : list Z :=
  match bs with
  | [] => []
  | b :: bs' => Z.shiftr b 4 :: Z.land b 15 :: nibbles bs'
  end.

Fixpoint checksum_chars (s : string) (ns : list Z) : string :=
  match s, ns with
  | String c s', n :: ns' =>
      String (if 8 <=? n then Hex.upper c else c) (checksum_chars s' ns')
  | _, _ => s
  end.

(** Modelled from the spec: the mixed-case checksum of an address
    ("addresses well-formed per chain convention"). *)
Definition checksumAddress (a : Hex) : Hex :=
  let hexAddress := Hex.toLowerCase (substring 2 (String.length a - 2) a) in
  "0x" ++ checksum_chars hexAddress
            (nibbles (Keccak.keccak256 (Hex.bytes_of_string hexAddress))).

(** Modelled from the spec: a syntactically valid address is ["0x"]
    and 40 hex digits, all lower case or carrying its checksum. *)
Definition isAddress (a : Hex) : bool :=
  match a with
  | String "0" (String "x" ds) =>
      (String.length ds =? 40)%nat && Hex.all_digits ds
      && ((Hex.toLowerCase a =? a)%string || (checksumAddress a =? a)%string)
  | _ => false
  end.

Definition maxUint256 : Z := 2 ^ 256 - 1.

(** Modelled from the spec: the fixed-width (32-byte), big-endian,
    zero-padded word of an unsigned integer, as 64 hex digits. *)
Definition numberToHex (n : Z) : string :=
  Hex.of_bytes (Hex.be_bytes 32 n).

(** Modelled from the spec: the word of an address, its 20 bytes in
    lower case, left-padded with zeros to 32 bytes. *)
Definition padHex (a : Hex) : string :=
  Hex.padStart 64 (Hex.toLowerCase (substring 2 (String.length a - 2) a)).

(** Modelled from the spec: the word of one argument; an integer out
    of the range of [uint256] and a malformed address are not well
    typed. *)
Definition encodeParam (ty : string) (v : Value) : AbiError + string :=
  match parseType ty, v with
  | TUint256, VBigint n =>
      if (n <? 0) || (maxUint256 <? n) then inl IntegerOutOfRangeError
      else inr (numberToHex n)
  | TAddress, VAddress a =>
      if isAddress a then inr (padHex a) else inl InvalidAddressError
  | _, _ => inl InvalidAbiEncodingTypeError
  end.

(** Modelled from the spec: the words of the arguments, one after the
    other. *)
Fixpoint encodeAbiParameters (params : list AbiParameter) (values : list Value)
  : AbiError + string :=
  match params, values with
  | [], [] => inr EmptyString
  | p :: params', v :: values' =>
      match encodeParam (AbiParameter.type p) v with
      | inl e => inl e
      | inr word =>
          match encodeAbiParameters params' values' with
          | inl e => inl e
          | inr rest => inr (word ++ rest)
          end
      end
  | _, _ => inl AbiEncodingLengthMismatchError
  end.

(** Modelled from the spec: the Call Encoder, [encode(functionSignature,
    args) -> bytes]: the selector of the named function followed by
    the argument words.  It is pure and local; it throws only on a
    call that is not well typed. *)
Definition encodeFunctionData (abi : Abi) (functionName : string)
  (args : list Value) : AbiError + Hex :=
  match getAbiItem abi functionName with
  | None => inl AbiFunctionNotFoundError
  | Some item =>
      match encodeAbiParameters (AbiFunction.inputs item) args with
      | inl e => inl e
      | inr words => inr (toFunctionSelector (formatAbiItem item) ++ words)
      end
  end.

End Encoder.

(** ** [index.ts] *)

Record DepositParams := {
  wallet : Hex;
  vault : Hex;
  amount : Z
}.

Module Transaction.
Record Transaction := {
  data : Hex;
  from : Hex;
  to : Hex;
  value : Z;
  gas : Z
}.
End Transaction.
Abbreviation Transaction := Transaction.Transaction.

(** The three error classes; each constructor passes a fixed message to
    [Error]. *)
Inductive DepositError : Type :=
| NotEnoughBalanceError
| MissingAllowanceError
| AmountExceedsMaxDepositError.

Definition message (e : DepositError) : string :=
  match e with
  | NotEnoughBalanceError => "Not enough balance"
  | MissingAllowanceError => "Not enough allowance"
  | AmountExceedsMaxDepositError => "Amount exceeds max deposit"
  end.

(** Everything a call of [deposit] can reject with: an instance of one
    of its own classes, what the encoder threw, or what the client
    rejected with. *)
Inductive Thrown (RpcError : Type) : Type :=
| Raised (e : DepositError)
| EncoderThrew (e : Encoder.AbiError)
| ClientRejected (e : RpcError).
Arguments Raised {RpcError} e.
Arguments EncoderThrew {RpcError} e.
Arguments ClientRejected {RpcError} e.

(** [await] on a promise of the client. *)
Definition await {World RpcError A} (m : Promise World RpcError A)
  : Promise World (Thrown RpcError) A :=
  fun w =>
    match m w with
    | (Fulfilled a, w') => (Fulfilled a, w')
    | (Rejected e, w') => (Rejected (ClientRejected e), w')
    end.

(** A synchronous call of the encoder inside the [async] function. *)
Definition encoded {World RpcError A} (r : Encoder.AbiError + A)
  : Promise World (Thrown RpcError) A :=
  match r with
  | inr a => resolve a
  | inl e => throw (EncoderThrew e)
  end.

(** Deposit an amount of an asset into a given vault: the body of the
    [async] function, statement by statement.  Every [await] is a
    [bind]; the two casts are the types of the reads. *)
Definition deposit {World RpcError : Type}
  (client : PublicClient World RpcError) (params : DepositParams)
  : Promise World (Thrown RpcError) Transaction :=
  let '{| wallet := wallet; vault := vault; amount := amount |} := params in
  (* 1. Get the asset address from the vault *)
  assetAddress <- await (readContract client
    {| ReadContract.address := vault;
       ReadContract.abi := ERC4626_ABI;
       ReadContract.functionName := "asset";
       ReadContract.args := [] |}) ;;
  (* 2. Check user balance *)
  balance <- await (readContract client
    {| ReadContract.address := assetAddress;
       ReadContract.abi := ERC20_ABI;
       ReadContract.functionName := "balanceOf";
       ReadContract.args := [VAddress wallet] |}) ;;
  if balance <? amount then throw (Raised NotEnoughBalanceError) else
  (* 3. Check allowance *)
  allowance <- await (readContract client
    {| ReadContract.address := assetAddress;
       ReadContract.abi := ERC20_ABI;
       ReadContract.functionName := "allowance";
       ReadContract.args := [VAddress wallet; VAddress vault] |}) ;;
  if allowance <? amount then throw (Raised MissingAllowanceError) else
  (* 4. Check max deposit *)
  maxDeposit <- await (readContract client
    {| ReadContract.address := vault;
       ReadContract.abi := ERC4626_ABI;
       ReadContract.functionName := "maxDeposit";
       ReadContract.args := [VAddress wallet] |}) ;;
  if amount >? maxDeposit then throw (Raised AmountExceedsMaxDepositError) else
  (* 5. Encode the deposit function call *)
  data <- encoded (Encoder.encodeFunctionData ERC4626_ABI "deposit"
                     [VBigint amount; VAddress wallet]) ;;
  (* 6. Estimate gas *)
  gas <- await (estimateGas client
    {| EstimateGas.account := wallet;
       EstimateGas.to := vault;
       EstimateGas.data := data;
       EstimateGas.value := 0 |}) ;;
  (* 7. Return the transaction object *)
  resolve
    {| Transaction.data := data;
       Transaction.from := wallet;
       Transaction.to := vault;
       Transaction.value := 0;
       Transaction.gas := gas |}.

(** ** Observing the chain interactions

    A spy wraps a client and records, in order, every request made
    through it together with how it settled.  [deposit] is generic in
    the world of the client, so it reaches the record only through the
    calls it makes. *)

Inductive Request : Type :=
| ReadContractCall (p : ReadContract.Parameters)
| EstimateGasCall (p : EstimateGas.Parameters).

Record Event (RpcError : Type) := {
  request : Request;
  response : Settled RpcError Value
}.
Arguments request {RpcError} _.
Arguments response {RpcError} _.

Definition settled_map {Err A B} (f : A -> B) (r : Settled Err A) : Settled Err B :=
  match r with
  | Fulfilled a => Fulfilled (f a)
  | Rejected e => Rejected e
  end.

Definition spy {World RpcError} (client : PublicClient World RpcError)
  : PublicClient (World * list (Event RpcError)) RpcError :=
  {| readContract p := fun s =>
       let '(r, w') := readContract client p (fst s) in
       (r, (w', (snd s ++
                 [ {| request := ReadContractCall p;
                      response := settled_map (toValue _) r |} ])%list));
     estimateGas p := fun s =>
       let '(r, w') := estimateGas client p (fst s) in
       (r, (w', (snd s ++
                 [ {| request := EstimateGasCall p;
                      response := settled_map VBigint r |} ])%list)) |}.

(** The requests of one invocation, in the order they were issued. *)
Definition trace {World RpcError} (client : PublicClient World RpcError)
  (params : DepositParams) (w : World) : list (Event RpcError) :=
  snd (snd (deposit (spy client) params (w, []))).

(** Whether a log holds a read of the function [fn]. *)
Definition queried {RpcError} (fn : string) (log : list (Event RpcError)) : bool :=
  existsb (fun ev =>
             match request ev with
             | ReadContractCall q => (ReadContract.functionName q =? fn)%string
             | EstimateGasCall _ => false
             end) log.

(** The five requests of [deposit], named. *)
Definition assetParams (p : DepositParams) : ReadContract.Parameters :=
  {| ReadContract.address := vault p;
     ReadContract.abi := ERC4626_ABI;
     ReadContract.functionName := "asset";
     ReadContract.args := [] |}.

Definition balanceOfParams (assetAddress : Hex) (p : DepositParams)
  : ReadContract.Parameters :=
  {| ReadContract.address := assetAddress;
     ReadContract.abi := ERC20_ABI;
     ReadContract.functionName := "balanceOf";
     ReadContract.args := [VAddress (wallet p)] |}.

Definition allowanceParams (assetAddress : Hex) (p : DepositParams)
  : ReadContract.Parameters :=
  {| ReadContract.address := assetAddress;
     ReadContract.abi := ERC20_ABI;
     ReadContract.functionName := "allowance";
     ReadContract.args := [VAddress (wallet p); VAddress (vault p)] |}.

Definition maxDepositParams (p : DepositParams) : ReadContract.Parameters :=
  {| ReadContract.address := vault p;
     ReadContract.abi := ERC4626_ABI;
     ReadContract.functionName := "maxDeposit";
     ReadContract.args := [VAddress (wallet p)] |}.

Definition gasParams (p : DepositParams) (data : Hex) : EstimateGas.Parameters :=
  {| EstimateGas.account := wallet p;
     EstimateGas.to := vault p;
     EstimateGas.data := data;
     EstimateGas.value := 0 |}.

Definition depositData (p : DepositParams) : Encoder.AbiError + Hex :=
  Encoder.encodeFunctionData ERC4626_ABI "deposit"
    [VBigint (amount p); VAddress (wallet p)].

(** The full sequence of requests of a call that runs to the end. *)
Definition pipeline (p : DepositParams) (assetAddress data : Hex) : list Request :=
  [ ReadContractCall (assetParams p);
    ReadContractCall (balanceOfParams assetAddress p);
    ReadContractCall (allowanceParams assetAddress p);
    ReadContractCall (maxDepositParams p);
    EstimateGasCall (gasParams p data) ].

(** ** A test chain

    A client over a small chain state, in the manner of the local node
    the tests run against: one token, one vault, one holder.  Every
    request consumes a request id; the methods listed in [outage] are
    rejected by the node. *)

Module Mock.

Record Chain := {
  token : Hex;
  balance : Z;
  allowance : Z;
  maxDepositLimit : Z;
  gasQuote : Z;
  outage : list string;
  nextId : nat
}.

Definition RpcError := string.

Definition tick (w : Chain) : Chain :=
  {| token := token w; balance := balance w; allowance := allowance w;
     maxDepositLimit := maxDepositLimit w; gasQuote := gasQuote w;
     outage := outage w; nextId := S (nextId w) |}.

Definition down (w : Chain) (method : string) : bool :=
  existsb (String.eqb method) (outage w).

Definition answer (w : Chain) (fn : string) : Value :=
  if (fn =? "asset")%string then VAddress (token w)
  else if (fn =? "balanceOf")%string then VBigint (balance w)
  else if (fn =? "allowance")%string then VBigint (allowance w)
  else if (fn =? "maxDeposit")%string then VBigint (maxDepositLimit w)
  else VUndefined.

Definition client : PublicClient Chain RpcError :=
  {| readContract p := fun w =>
       if down w (ReadContract.functionName p)
       then (Rejected "request failed", tick w)
       else
         match decode _ (answer w (ReadContract.functionName p)) with
         | Some v => (Fulfilled v, tick w)
         | None => (Rejected "cannot decode the result", tick w)
         end;
     estimateGas p := fun w =>
       if down w "estimateGas"
       then (Rejected "execution reverted", tick w)
       else (Fulfilled (gasQuote w), tick w) |}.

Definition account : Hex := "0xf39Fd6e51aad88F6F4ce6aB8827279cffFb92266".
Definition vaultAddress : Hex := "0xe7f1725e7734ce288f8367e1bb143e90bb3f0512".
Definition tokenAddress : Hex := "0x5fbdb2315678afecb367f032d93f642f64180aa3".

Definition chain (balance allowance cap gas : Z) (outage : list string) : Chain :=
  {| token := tokenAddress; balance := balance; allowance := allowance;
     maxDepositLimit := cap; gasQuote := gas; outage := outage; nextId := 0 |}.

Definition request (amount : Z) : DepositParams :=
  {| wallet := account; vault := vaultAddress; amount := amount |}.

(** The chain after [n] requests. *)
Definition after (n : nat) (w : Chain) : Chain := Nat.iter n tick w.

(** The call data and the descriptor expected for [request amount]. *)
Definition callData (amount : Z) : Hex :=
  "0x6e553f65" ++ Encoder.numberToHex amount ++ Encoder.padHex account.

Definition descriptor (amount gas : Z) : Transaction :=
  {| Transaction.data := callData amount;
     Transaction.from := account;
     Transaction.to := vaultAddress;
     Transaction.value := 0;
     Transaction.gas := gas |}.

End Mock.

(** The entry of [deposit] in [ERC4626_ABI]. *)
Definition depositItem : AbiFunction :=
  {| AbiFunction.name := "deposit";
     AbiFunction.type := "function";
     AbiFunction.stateMutability := "nonpayable";
     AbiFunction.inputs :=
       [ {| AbiParameter.name := "assets"; AbiParameter.type := "uint256" |};
         {| AbiParameter.name := "receiver"; AbiParameter.type := "address" |} ];
     AbiFunction.outputs :=
       [ {| AbiParameter.name := "shares"; AbiParameter.type := "uint256" |} ] |}.

(** An event of the record: a request that was answered, and one that
    was rejected. *)
Definition answered {RpcError} (q : Request) (v : Value) : Event RpcError :=
  {| request := q; response := Fulfilled v |}.

Definition failed {RpcError} (q : Request) (e : RpcError) : Event RpcError :=
  {| request := q; response := Rejected e |}.

(** A request was issued; an integer read was answered with a value
    that satisfies [ok]. *)
Definition issued {RpcError} (log : list (Event RpcError)) (q : Request) : Prop :=
  In q (map request log).

Definition passed {RpcError} (log : list (Event RpcError)) (q : Request)
  (ok : Z -> Prop) : Prop :=
  exists v, In (answered q (VBigint v)) log /\ ok v.

(** How many requests have been issued when the guard of an error
    fires. *)
Definition requestsBefore (e : DepositError) : nat :=
  match e with
  | NotEnoughBalanceError => 2
  | MissingAllowanceError => 3
  | AmountExceedsMaxDepositError => 4
  end.

(** The courses one invocation of [deposit] can take: which requests
    were made, how each settled, and what the call settled with. *)
Section Courses.

Context {World RpcError : Type}.
Variable client : PublicClient World RpcError.
Variable p : DepositParams.

Inductive Run (w0 : World)
  : Settled (Thrown RpcError) Transaction -> World -> list (Event RpcError) -> Prop :=
| run_asset_rejected e w1 :
    readContract client (assetParams p) w0 = (Rejected e, w1) ->
    Run w0 (Rejected (ClientRejected e)) w1
      [ failed (ReadContractCall (assetParams p)) e ]
| run_balanceOf_rejected a w1 e w2 :
    readContract client (assetParams p) w0 = (Fulfilled a, w1) ->
    readContract client (balanceOfParams a p) w1 = (Rejected e, w2) ->
    Run w0 (Rejected (ClientRejected e)) w2
      [ answered (ReadContractCall (assetParams p)) (VAddress a);
        failed (ReadContractCall (balanceOfParams a p)) e ]
| run_not_enough_balance a w1 balance w2 :
    readContract client (assetParams p) w0 = (Fulfilled a, w1) ->
    readContract client (balanceOfParams a p) w1 = (Fulfilled balance, w2) ->
    balance < amount p ->
    Run w0 (Rejected (Raised NotEnoughBalanceError)) w2
      [ answered (ReadContractCall (assetParams p)) (VAddress a);
        answered (ReadContractCall (balanceOfParams a p)) (VBigint balance) ]
| run_allowance_rejected a w1 balance w2 e w3 :
    readContract client (assetParams p) w0 = (Fulfilled a, w1) ->
    readContract client (balanceOfParams a p) w1 = (Fulfilled balance, w2) ->
    amount p <= balance ->
    readContract client (allowanceParams a p) w2 = (Rejected e, w3) ->
    Run w0 (Rejected (ClientRejected e)) w3
      [ answered (ReadContractCall (assetParams p)) (VAddress a);
        answered (ReadContractCall (balanceOfParams a p)) (VBigint balance);
        failed (ReadContractCall (allowanceParams a p)) e ]
| run_missing_allowance a w1 balance w2 allowance w3 :
    readContract client (assetParams p) w0 = (Fulfilled a, w1) ->
    readContract client (balanceOfParams a p) w1 = (Fulfilled balance, w2) ->
    amount p <= balance ->
    readContract client (allowanceParams a p) w2 = (Fulfilled allowance, w3) ->
    allowance < amount p ->
    Run w0 (Rejected (Raised MissingAllowanceError)) w3
      [ answered (ReadContractCall (assetParams p)) (VAddress a);
        answered (ReadContractCall (balanceOfParams a p)) (VBigint balance);
        answered (ReadContractCall (allowanceParams a p)) (VBigint allowance) ]
| run_maxDeposit_rejected a w1 balance w2 allowance w3 e w4 :
    readContract client (assetParams p) w0 = (Fulfilled a, w1) ->
    readContract client (balanceOfParams a p) w1 = (Fulfilled balance, w2) ->
    amount p <= balance ->
    readContract client (allowanceParams a p) w2 = (Fulfilled allowance, w3) ->
    amount p <= allowance ->
    readContract client (maxDepositParams p) w3 = (Rejected e, w4) ->
    Run w0 (Rejected (ClientRejected e)) w4
      [ answered (ReadContractCall (assetParams p)) (VAddress a);
        answered (ReadContractCall (balanceOfParams a p)) (VBigint balance);
        answered (ReadContractCall (allowanceParams a p)) (VBigint allowance);
        failed (ReadContractCall (maxDepositParams p)) e ]
| run_exceeds_max_deposit a w1 balance w2 allowance w3 maxDeposit w4 :
    readContract client (assetParams p) w0 = (Fulfilled a, w1) ->
    readContract client (balanceOfParams a p) w1 = (Fulfilled balance, w2) ->
    amount p <= balance ->
    readContract client (allowanceParams a p) w2 = (Fulfilled allowance, w3) ->
    amount p <= allowance ->
    readContract client (maxDepositParams p) w3 = (Fulfilled maxDeposit, w4) ->
    maxDeposit < amount p ->
    Run w0 (Rejected (Raised AmountExceedsMaxDepositError)) w4
      [ answered (ReadContractCall (assetParams p)) (VAddress a);
        answered (ReadContractCall (balanceOfParams a p)) (VBigint balance);
        answered (ReadContractCall (allowanceParams a p)) (VBigint allowance);
        answered (ReadContractCall (maxDepositParams p)) (VBigint maxDeposit) ]
| run_encoder_threw a w1 balance w2 allowance w3 maxDeposit w4 err :
    readContract client (assetParams p) w0 = (Fulfilled a, w1) ->
    readContract client (balanceOfParams a p) w1 = (Fulfilled balance, w2) ->
    amount p <= balance ->
    readContract client (allowanceParams a p) w2 = (Fulfilled allowance, w3) ->
    amount p <= allowance ->
    readContract client (maxDepositParams p) w3 = (Fulfilled maxDeposit, w4) ->
    amount p <= maxDeposit ->
    depositData p = inl err ->
    Run w0 (Rejected (EncoderThrew err)) w4
      [ answered (ReadContractCall (assetParams p)) (VAddress a);
        answered (ReadContractCall (balanceOfParams a p)) (VBigint balance);
        answered (ReadContractCall (allowanceParams a p)) (VBigint allowance);
        answered (ReadContractCall (maxDepositParams p)) (VBigint maxDeposit) ]
| run_estimateGas_rejected a w1 balance w2 allowance w3 maxDeposit w4 data e w5 :
    readContract client (assetParams p) w0 = (Fulfilled a, w1) ->
    readContract client (balanceOfParams a p) w1 = (Fulfilled balance, w2) ->
    amount p <= balance ->
    readContract client (allowanceParams a p) w2 = (Fulfilled allowance, w3) ->
    amount p <= allowance ->
    readContract client (maxDepositParams p) w3 = (Fulfilled maxDeposit, w4) ->
    amount p <= maxDeposit ->
    depositData p = inr data ->
    estimateGas client (gasParams p data) w4 = (Rejected e, w5) ->
    Run w0 (Rejected (ClientRejected e)) w5
      [ answered (ReadContractCall (assetParams p)) (VAddress a);
        answered (ReadContractCall (balanceOfParams a p)) (VBigint balance);
        answered (ReadContractCall (allowanceParams a p)) (VBigint allowance);
        answered (ReadContractCall (maxDepositParams p)) (VBigint maxDeposit);
        failed (EstimateGasCall (gasParams p data)) e ]
| run_fulfilled a w1 balance w2 allowance w3 maxDeposit w4 data gas w5 :
    readContract client (assetParams p) w0 = (Fulfilled a, w1) ->
    readContract client (balanceOfParams a p) w1 = (Fulfilled balance, w2) ->
    amount p <= balance ->
    readContract client (allowanceParams a p) w2 = (Fulfilled allowance, w3) ->
    amount p <= allowance ->
    readContract client (maxDepositParams p) w3 = (Fulfilled maxDeposit, w4) ->
    amount p <= maxDeposit ->
    depositData p = inr data ->
    estimateGas client (gasParams p data) w4 = (Fulfilled gas, w5) ->
    Run w0
      (Fulfilled {| Transaction.data := data;
                    Transaction.from := wallet p;
                    Transaction.to := vault p;
                    Transaction.value := 0;
                    Transaction.gas := gas |}) w5
      [ answered (ReadContractCall (assetParams p)) (VAddress a);
        answered (ReadContractCall (balanceOfParams a p)) (VBigint balance);
        answered (ReadContractCall (allowanceParams a p)) (VBigint allowance);
        answered (ReadContractCall (maxDepositParams p)) (VBigint maxDeposit);
        answered (EstimateGasCall (gasParams p data)) (VBigint gas) ].

End Courses.

(** ** The contracts of [MockERC4626.sol]

    Solidity ^0.8.0: a [uint256] is an integer in [0, 2^256 - 1] held in
    [Z]; [+=] and [-=] are checked and revert with [Panic(0x11)] out of
    that range; [require] reverts with [Error(reason)]; a revert undoes
    every change of the call, so a reverted call returns no state.  A
    mapping is a total function with default 0. *)

Module Solidity.

Definition address := Z.

(** [type(uint256).max] *)
Definition uint256_max : Z := 2 ^ 256 - 1.

Definition uint256 (n : Z) : Prop := 0 <= n <= uint256_max.

Inductive Failure : Type :=
| Error (reason : string)
| Panic (code : Z)
| CallFailed.

Inductive Outcome (A : Type) : Type :=
| Returned (a : A)
| Reverted (f : Failure).
Arguments Returned {A} a.
Arguments Reverted {A} f.

(** A call on a state [S]: it returns a value and the new state, or
    reverts. *)
Definition Tx (S A : Type) : Type := S -> Outcome (A * S).

Definition pure {S A} (a : A) : Tx S A := fun s => Returned (a, s).

Definition revert {S A} (f : Failure) : Tx S A := fun _ => Reverted f.

Definition andThen {S A B} (m : Tx S A) (k : A -> Tx S B) : Tx S B :=
  fun s =>
    match m s with
    | Returned (a, s') => k a s'
    | Reverted f => Reverted f
    end.

Definition load {S A} (f : S -> A) : Tx S A := fun s => Returned (f s, s).

Definition store {S} (f : S -> S) : Tx S unit := fun s => Returned (tt, f s).

Definition require {S} (condition : bool) (reason : string) : Tx S unit :=
  if condition then pure tt else revert (Error reason).

(** Checked addition and subtraction of [uint256]. *)
Definition add {S} (x y : Z) : Tx S Z :=
  if x + y <=? uint256_max then pure (x + y) else revert (Panic 0x11).

Definition sub {S} (x y : Z) : Tx S Z :=
  if y <=? x then pure (x - y) else revert (Panic 0x11).

(** [m[k] = v] *)
Definition set (m : address -> Z) (k : address) (v : Z) : address -> Z :=
  fun a => if a =? k then v else m a.

(** [m[from] -= amount; m[to] += amount;] *)
Definition move (m : address -> Z) (from to : address) (amount : Z)
  : address -> Z :=
  set (set m from (m from - amount)) to (set m from (m from - amount) to + amount).

(** [m[k1][k2] = v] *)
Definition set2 (m : address -> address -> Z) (k1 k2 : address) (v : Z)
  : address -> address -> Z :=
  fun a b => if (a =? k1) && (b =? k2) then v else m a b.

End Solidity.

Notation "'let*' x ':=' m 'in' k" := (Solidity.andThen m (fun x => k))
  (at level 10, x name, m at level 100, k at level 200).

Notation "m ';;;' k" := (Solidity.andThen m (fun _ => k))
  (at level 100, k at level 200, right associativity).

Module MockERC20.

Import Solidity.

Record State := {
  balanceOf : address -> Z;
  allowance : address -> address -> Z;
  name : string;
  symbol : string;
  decimals : Z;
  totalSupply : Z
}.

Definition with_balanceOf (s : State) (m : address -> Z) : State :=
  {| balanceOf := m; allowance := allowance s; name := name s;
     symbol := symbol s; decimals := decimals s; totalSupply := totalSupply s |}.

Definition with_allowance (s : State) (m : address -> address -> Z) : State :=
  {| balanceOf := balanceOf s; allowance := m; name := name s;
     symbol := symbol s; decimals := decimals s; totalSupply := totalSupply s |}.

Definition with_totalSupply (s : State) (n : Z) : State :=
  {| balanceOf := balanceOf s; allowance := allowance s; name := name s;
     symbol := symbol s; decimals := decimals s; totalSupply := n |}.

Definition constructor (msg_sender : address) (_initialSupply : Z) : State :=
  {| balanceOf := set (fun _ => 0) msg_sender _initialSupply;
     allowance := fun _ _ => 0;
     name := "Mock Token";
     symbol := "MOCK";
     decimals := 18;
     totalSupply := _initialSupply |}.

Definition mint (to : address) (amount : Z) : Tx State unit :=
  (* balanceOf[to] += amount; *)
  let* b := load (fun s => balanceOf s to) in
  let* b' := add b amount in
  store (fun s => with_balanceOf s (set (balanceOf s) to b')) ;;;
  (* totalSupply += amount; *)
  let* t := load totalSupply in
  let* t' := add t amount in
  store (fun s => with_totalSupply s t').

Definition approve (msg_sender spender : address) (amount : Z) : Tx State bool :=
  (* allowance[msg.sender][spender] = amount; *)
  store (fun s => with_allowance s (set2 (allowance s) msg_sender spender amount)) ;;;
  pure true.

Definition transfer (msg_sender to : address) (amount : Z) : Tx State bool :=
  let* b := load (fun s => balanceOf s msg_sender) in
  require (amount <=? b) "Insufficient balance" ;;;
  (* balanceOf[msg.sender] -= amount; *)
  let* b := load (fun s => balanceOf s msg_sender) in
  let* b' := sub b amount in
  store (fun s => with_balanceOf s (set (balanceOf s) msg_sender b')) ;;;
  (* balanceOf[to] += amount; *)
  let* b := load (fun s => balanceOf s to) in
  let* b' := add b amount in
  store (fun s => with_balanceOf s (set (balanceOf s) to b')) ;;;
  pure true.

Definition transferFrom (msg_sender from to : address) (amount : Z) : Tx State bool :=
  let* b := load (fun s => balanceOf s from) in
  require (amount <=? b) "Insufficient balance" ;;;
  let* a := load (fun s => allowance s from msg_sender) in
  require (amount <=? a) "Insufficient allowance" ;;;
  (* balanceOf[from] -= amount; *)
  let* b := load (fun s => balanceOf s from) in
  let* b' := sub b amount in
  store (fun s => with_balanceOf s (set (balanceOf s) from b')) ;;;
  (* balanceOf[to] += amount; *)
  let* b := load (fun s => balanceOf s to) in
  let* b' := add b amount in
  store (fun s => with_balanceOf s (set (balanceOf s) to b')) ;;;
  (* allowance[from][msg.sender] -= amount; *)
  let* a := load (fun s => allowance s from msg_sender) in
  let* a' := sub a amount in
  store (fun s => with_allowance s (set2 (allowance s) from msg_sender a')) ;;;
  pure true.

End MockERC20.

Module MockERC4626.

Import Solidity.

Record State := {
  asset : address;
  balanceOf : address -> Z;
  totalSupply : Z;
  name : string;
  symbol : string;
  decimals : Z;
  maxDepositLimit : Z
}.

Definition with_balanceOf (s : State) (m : address -> Z) : State :=
  {| asset := asset s; balanceOf := m; totalSupply := totalSupply s;
     name := name s; symbol := symbol s; decimals := decimals s;
     maxDepositLimit := maxDepositLimit s |}.

Definition with_totalSupply (s : State) (n : Z) : State :=
  {| asset := asset s; balanceOf := balanceOf s; totalSupply := n;
     name := name s; symbol := symbol s; decimals := decimals s;
     maxDepositLimit := maxDepositLimit s |}.

Definition with_maxDepositLimit (s : State) (n : Z) : State :=
  {| asset := asset s; balanceOf := balanceOf s; totalSupply := totalSupply s;
     name := name s; symbol := symbol s; decimals := decimals s;
     maxDepositLimit := n |}.

Definition constructor (_asset : address) : State :=
  {| asset := _asset;
     balanceOf := fun _ => 0;
     totalSupply := 0;
     name := "Mock Vault";
     symbol := "mvToken";
     decimals := 18;
     maxDepositLimit := uint256_max |}.

(** The chain the vault runs on: the vault at its address and the
    token contract at its own.  No other address has code. *)
Record Chain := {
  tokenAddress : address;
  token : MockERC20.State;
  vaultAddress : address;
  vault : State
}.

Definition with_token (c : Chain) (t : MockERC20.State) : Chain :=
  {| tokenAddress := tokenAddress c; token := t;
     vaultAddress := vaultAddress c; vault := vault c |}.

Definition with_vault (c : Chain) (v : State) : Chain :=
  {| tokenAddress := tokenAddress c; token := token c;
     vaultAddress := vaultAddress c; vault := v |}.

(** A call of the token by an account. *)
Definition onToken {A} (m : Tx MockERC20.State A) : Tx Chain A :=
  fun c =>
    match m (token c) with
    | Returned (a, t) => Returned (a, with_token c t)
    | Reverted f => Reverted f
    end.

(** The external call [IERC20(target).transferFrom(from, to, amount)]
    made by [caller]: a revert of the callee is the revert of the
    caller, and a target without this function reverts. *)
Definition IERC20_transferFrom (target caller from to : address) (amount : Z)
  : Tx Chain bool :=
  fun c =>
    if target =? tokenAddress c
    then onToken (MockERC20.transferFrom caller from to amount) c
    else Reverted CallFailed.

Definition setMaxDepositLimit (_limit : Z) : Tx Chain unit :=
  store (fun c => with_vault c (with_maxDepositLimit (vault c) _limit)).

Definition maxDeposit (_ : address) (c : Chain) : Z :=
  maxDepositLimit (vault c).

Definition deposit (msg_sender : address) (assets : Z) (receiver : address)
  : Tx Chain Z :=
  let* limit := load (fun c => maxDepositLimit (vault c)) in
  require (assets <=? limit) "Exceeds max deposit" ;;;
  (* Simple 1:1 ratio for testing *)
  let shares := assets in
  (* Transfer assets from caller *)
  let* this := load vaultAddress in
  let* target := load (fun c => asset (vault c)) in
  let* ok := IERC20_transferFrom target this msg_sender this assets in
  require ok "Transfer failed" ;;;
  (* Mint shares *)
  let* b := load (fun c => balanceOf (vault c) receiver) in
  let* b' := add b shares in
  store (fun c => with_vault c
                    (with_balanceOf (vault c) (set (balanceOf (vault c)) receiver b'))) ;;;
  let* t := load (fun c => totalSupply (vault c)) in
  let* t' := add t shares in
  store (fun c => with_vault c (with_totalSupply (vault c) t')) ;;;
  pure shares.

Definition withdraw (msg_sender : address) (assets : Z) (receiver owner : address)
  : Tx Chain Z :=
  let shares := assets in (* 1:1 ratio *)
  let* b := load (fun c => balanceOf (vault c) owner) in
  require (shares <=? b) "Insufficient shares" ;;;
  (* if (msg.sender != owner) { } *)
  (if negb (msg_sender =? owner) then pure tt else pure tt) ;;;
  let* b := load (fun c => balanceOf (vault c) owner) in
  let* b' := sub b shares in
  store (fun c => with_vault c
                    (with_balanceOf (vault c) (set (balanceOf (vault c)) owner b'))) ;;;
  let* t := load (fun c => totalSupply (vault c)) in
  let* t' := sub t shares in
  store (fun c => with_vault c (with_totalSupply (vault c) t')) ;;;
  (* Transfer assets to receiver *)
  let* this := load vaultAddress in
  let* target := load (fun c => asset (vault c)) in
  let* ok := IERC20_transferFrom target this this receiver assets in
  require ok "Transfer failed" ;;;
  pure shares.

(** The chain after a [deposit] that did not revert. *)
Definition deposited (c : Chain) (msg_sender : address) (assets : Z)
  (receiver : address) : Chain :=
  {| tokenAddress := tokenAddress c;
     token :=
       MockERC20.with_allowance
         (MockERC20.with_balanceOf (token c)
            (move (MockERC20.balanceOf (token c)) msg_sender (vaultAddress c) assets))
         (set2 (MockERC20.allowance (token c)) msg_sender (vaultAddress c)
            (MockERC20.allowance (token c) msg_sender (vaultAddress c) - assets));
     vaultAddress := vaultAddress c;
     vault :=
       with_totalSupply
         (with_balanceOf (vault c)
            (set (balanceOf (vault c)) receiver (balanceOf (vault c) receiver + assets)))
         (totalSupply (vault c) + assets) |}.

(** The chain after a [withdraw] that did not revert. *)
Definition withdrawn (c : Chain) (assets : Z) (receiver owner : address) : Chain :=
  {| tokenAddress := tokenAddress c;
     token :=
       MockERC20.with_allowance
         (MockERC20.with_balanceOf (token c)
            (move (MockERC20.balanceOf (token c)) (vaultAddress c) receiver assets))
         (set2 (MockERC20.allowance (token c)) (vaultAddress c) (vaultAddress c)
            (MockERC20.allowance (token c) (vaultAddress c) (vaultAddress c) - assets));
     vaultAddress := vaultAddress c;
     vault :=
       with_totalSupply
         (with_balanceOf (vault c)
            (set (balanceOf (vault c)) owner (balanceOf (vault c) owner - assets)))
         (totalSupply (vault c) - assets) |}.

(** The two deployments of the tests: the token, then the vault on the
    token's address. *)
Definition deploy (deployer : address) (_initialSupply : Z)
  (tokenAddr vaultAddr : address) : Chain :=
  {| tokenAddress := tokenAddr;
     token := MockERC20.constructor deployer _initialSupply;
     vaultAddress := vaultAddr;
     vault := constructor tokenAddr |}.

(** The state-changing calls an account can send. *)
Inductive Call : Type :=
| Mint (to : address) (amount : Z)
| Approve (spender : address) (amount : Z)
| Transfer (to : address) (amount : Z)
| TransferFrom (from to : address) (amount : Z)
| SetMaxDepositLimit (_limit : Z)
| Deposit (assets : Z) (receiver : address)
| Withdraw (assets : Z) (receiver owner : address).

(** The integer arguments of a call are [uint256]. *)
Definition wellFormed (call : Call) : Prop :=
  match call with
  | Mint _ n | Approve _ n | Transfer _ n | TransferFrom _ _ n
  | SetMaxDepositLimit n | Deposit n _ | Withdraw n _ _ => uint256 n
  end.

Definition discard {S A} (m : Tx S A) : S -> Outcome S :=
  fun s =>
    match m s with
    | Returned (_, s') => Returned s'
    | Reverted f => Reverted f
    end.

(** The transaction of [sender] making [call]. *)
Definition execute (sender : address) (call : Call) : Chain -> Outcome Chain :=
  match call with
  | Mint to amount => discard (onToken (MockERC20.mint to amount))
  | Approve spender amount => discard (onToken (MockERC20.approve sender spender amount))
  | Transfer to amount => discard (onToken (MockERC20.transfer sender to amount))
  | TransferFrom from to amount =>
      discard (onToken (MockERC20.transferFrom sender from to amount))
  | SetMaxDepositLimit _limit => discard (setMaxDepositLimit _limit)
  | Deposit assets receiver => discard (deposit sender assets receiver)
  | Withdraw assets receiver owner => discard (withdraw sender assets receiver owner)
  end.

(** The states of the chain: the deployment, then transactions that
    did not revert, sent by accounts (the vault itself sends none: its
    code makes no call but [transferFrom] on its asset). *)
Inductive Reachable : Chain -> Prop :=
| Deployed deployer _initialSupply tokenAddr vaultAddr :
    uint256 _initialSupply ->
    tokenAddr <> vaultAddr ->
    Reachable (deploy deployer _initialSupply tokenAddr vaultAddr)
| Mined c sender call c' :
    Reachable c ->
    sender <> vaultAddress c ->
    wellFormed call ->
    execute sender call c = Returned c' ->
    Reachable c'.

(** The sum of a mapping over a list of keys. *)
Fixpoint total (m : address -> Z) (l : list address) : Z :=
  match l with
  | [] => 0
  | a :: l' => m a + total m l'
  end.

(** The supply of a token is the sum of its balances: a finite list of
    holders, outside of which every balance is 0, sums to [supply]. *)
Definition SumOfBalances (m : address -> Z) (supply : Z) : Prop :=
  exists holders,
    NoDup holders
    /\ (forall a, ~ In a holders -> m a = 0)
    /\ total m holders = supply.

(** What every state of the chain satisfies (see [reachable_sound]):
    the vault's asset is the token; no set of accounts holds more
    tokens than the total supply, which is a [uint256]; the vault has
    approved nobody; every share is backed by a token the vault
    holds; no account holds more shares than there are. *)
Definition Sound (c : Chain) : Prop :=
  tokenAddress c <> vaultAddress c
  /\ asset (vault c) = tokenAddress c
  /\ (forall a, 0 <= MockERC20.balanceOf (token c) a)
  /\ (forall l, NoDup l ->
       total (MockERC20.balanceOf (token c)) l <= MockERC20.totalSupply (token c))
  /\ MockERC20.totalSupply (token c) <= uint256_max
  /\ (forall a b, uint256 (MockERC20.allowance (token c) a b))
  /\ (forall x, MockERC20.allowance (token c) (vaultAddress c) x = 0)
  /\ 0 <= totalSupply (vault c) <= MockERC20.balanceOf (token c) (vaultAddress c)
  /\ (forall a, 0 <= balanceOf (vault c) a <= totalSupply (vault c))
  /\ uint256 (maxDepositLimit (vault c)).

End MockERC4626.

(** ** The chain of the tests

    The setup of the first test: both contracts deployed by the
    account, 1000 tokens minted to it, the vault approved for 500. *)

Module Fixture.

Import Solidity.
Import MockERC4626.

Definition hexDigitValue (ch : ascii) : Z :=
  let n := Z.of_N (N_of_ascii ch) in
  if (48 <=? n) && (n <=? 57) then n - 48
  else if (97 <=? n) && (n <=? 102) then n - 87
  else if (65 <=? n) && (n <=? 70) then n - 55
  else 0.

Fixpoint hexValue (acc : Z) (s : string) : Z :=
  match s with
  | EmptyString => acc
  | String ch s' => hexValue (16 * acc + hexDigitValue ch) s'
  end.

(** Modelled from the spec: the account a hex address names on the
    chain, the number its hex digits spell, in either case. *)
Definition addressOf (a : Hex) : address :=
  hexValue 0 (substring 2 (String.length a - 2) a).

Definition account : address := addressOf Mock.account.
Definition tokenAddress : address := addressOf Mock.tokenAddress.
Definition vaultAddress : address := addressOf Mock.vaultAddress.

(** The chain a transaction leaves, or the one it started from when it
    reverts. *)
Definition mined (sender : address) (call : Call) (c : Chain) : Chain :=
  match execute sender call c with
  | Returned c' => c'
  | Reverted _ => c
  end.

Definition deployed : Chain := deploy account 0 tokenAddress vaultAddress.

Definition minted : Chain := mined account (Mint account 1000) deployed.

Definition funded : Chain := mined account (Approve vaultAddress 500) minted.

Definition invested : Chain := mined account (Deposit 100 account) funded.

(** The fourth test lowers the limit of the vault to 50. *)
Definition capped : Chain := mined account (SetMaxDepositLimit 50) funded.

End Fixture.

(** Call data as the tests check it: ["0x"] followed by hex digits, here
    a whole number of bytes. *)
Definition isCallData (d : Hex) : bool :=
  match d with
  | String "0" (String "x" ds) =>
      Hex.all_digits ds && Nat.even (String.length ds)
  | _ => false
  end.

(** * Properties *)

(** ** Hex strings *)

Section HexFacts.

Lemma length_append (s t : string) :
  String.length (s ++ t) = (String.length s + String.length t)%nat.
Proof. induction s as [|c s IH]; simpl; [reflexivity | now rewrite IH]. Qed.

Lemma append_empty (s : string) : s ++ EmptyString = s.
Proof. induction s as [|c s IH]; simpl; [reflexivity | now rewrite IH]. Qed.

Lemma all_digits_append (s t : string) :
  Hex.all_digits (s ++ t) = Hex.all_digits s && Hex.all_digits t.
Proof.
  induction s as [|c s IH]; simpl; [reflexivity|].
  now rewrite IH, andb_assoc.
Qed.

Lemma is_digit_digit (n : Z) : Hex.is_digit (Hex.digit n) = true.
Proof.
  destruct n as [|q|q]; try reflexivity.
  do 5 (try (destruct q as [q|q|]; try reflexivity)).
Qed.

Lemma length_of_bytes (bs : list Z) :
  String.length (Hex.of_bytes bs) = (2 * List.length bs)%nat.
Proof.
  induction bs as [|b bs IH]; [reflexivity|].
  cbn [Hex.of_bytes Hex.of_byte append String.length List.length].
  rewrite IH. lia.
Qed.

Lemma all_digits_of_bytes (bs : list Z) :
  Hex.all_digits (Hex.of_bytes bs) = true.
Proof.
  induction bs as [|b bs IH]; [reflexivity|].
  cbn [Hex.of_bytes Hex.of_byte append Hex.all_digits].
  now rewrite !is_digit_digit, IH.
Qed.

Lemma length_be_bytes (n : nat) (v : Z) : List.length (Hex.be_bytes n v) = n.
Proof.
  revert v. induction n as [|n IH]; intros v; [reflexivity|].
  cbn [Hex.be_bytes]. rewrite length_app, IH. simpl. lia.
Qed.

Lemma be_value_be_bytes (n : nat) (v : Z) :
  0 <= v < 256 ^ Z.of_nat n -> Hex.be_value (Hex.be_bytes n v) = v.
Proof.
  revert v. induction n as [|n IH]; intros v Hv.
  - change (256 ^ Z.of_nat 0) with 1 in Hv. cbn. lia.
  - cbn [Hex.be_bytes]. unfold Hex.be_value in *.
    rewrite fold_left_app. cbn [fold_left].
    rewrite IH.
    + rewrite Z.shiftr_div_pow2 by lia.
      change 255 with (Z.ones 8). rewrite Z.land_ones by lia.
      change (2 ^ 8) with 256. pose proof (Z.div_mod v 256). lia.
    + rewrite Z.shiftr_div_pow2 by lia. change (2 ^ 8) with 256.
      rewrite Nat2Z.inj_succ, Z.pow_succ_r in Hv by lia.
      split; [apply Z.div_pos; lia | apply Z.div_lt_upper_bound; lia].
Qed.

Lemma is_digit_lower (c : ascii) :
  Hex.is_digit c = true -> Hex.is_digit (Hex.lower c) = true.
Proof.
  destruct c as [[] [] [] [] [] [] [] []]; vm_compute; intro H;
    first [reflexivity | discriminate H].
Qed.

Lemma length_toLowerCase (s : string) :
  String.length (Hex.toLowerCase s) = String.length s.
Proof. induction s as [|c s IH]; simpl; [reflexivity | now rewrite IH]. Qed.

Lemma all_digits_toLowerCase (s : string) :
  Hex.all_digits s = true -> Hex.all_digits (Hex.toLowerCase s) = true.
Proof.
  induction s as [|c s IH]; simpl; [reflexivity|].
  intros [Hc Hs]%andb_true_iff.
  now rewrite (is_digit_lower _ Hc), (IH Hs).
Qed.

Lemma length_repeat_zero (n : nat) : String.length (Hex.repeat_zero n) = n.
Proof. induction n as [|n IH]; simpl; [reflexivity | now rewrite IH]. Qed.

Lemma all_digits_repeat_zero (n : nat) :
  Hex.all_digits (Hex.repeat_zero n) = true.
Proof. induction n as [|n IH]; simpl; [reflexivity | exact IH]. Qed.

Lemma substring_all (s : string) : substring 0 (String.length s) s = s.
Proof. induction s as [|c s IH]; simpl; [reflexivity | now rewrite IH]. Qed.

End HexFacts.

(** ** Known answers

    The hash, the selector derivation and the address checksum on
    values known from elsewhere. *)

Example keccak256_empty :
  Hex.of_bytes (Keccak.keccak256 [])
  = "c5d2460186f7233c927e7db2dcc703c0e500b653ca82273b7bfad8045d85a470".
Proof. vm_compute. reflexivity. Qed.

Example keccak256_abc :
  Hex.of_bytes (Keccak.keccak256 (Hex.bytes_of_string "abc"))
  = "4e03657aea45a94fc7d47ba826c8d667c0d1e6e33a64a036ec44f58fa12d6c45".
Proof. vm_compute. reflexivity. Qed.

Example selector_of_transfer :
  Encoder.toFunctionSelector "transfer(address,uint256)" = "0xa9059cbb".
Proof. vm_compute. reflexivity. Qed.

Example checksum_of_account :
  Encoder.checksumAddress "0xf39fd6e51aad88f6f4ce6ab8827279cfffb92266"
  = "0xf39Fd6e51aad88F6F4ce6aB8827279cffFb92266".
Proof. vm_compute. reflexivity. Qed.

Example isAddress_checks_the_case :
  Encoder.isAddress "0xf39Fd6e51aad88F6F4ce6aB8827279cffFb92266" = true
  /\ Encoder.isAddress "0xf39fd6e51aad88f6f4ce6ab8827279cfffb92266" = true
  /\ Encoder.isAddress "0xf39fd6e51aad88F6F4ce6aB8827279cffFb92266" = false
  /\ Encoder.isAddress "0xf39fd6e51aad88f6f4ce6ab8827279cfffb922" = false.
Proof. vm_compute. repeat split. Qed.

(** ** The encoder on the [deposit] call *)

Section EncoderFacts.

Import Encoder.

Lemma getAbiItem_deposit : getAbiItem ERC4626_ABI "deposit" = Some depositItem.
Proof. reflexivity. Qed.

Lemma deposit_signature : formatAbiItem depositItem = "deposit(uint256,address)".
Proof. reflexivity. Qed.

Lemma deposit_selector :
  toFunctionSelector "deposit(uint256,address)" = "0x6e553f65".
Proof. vm_compute. reflexivity. Qed.

Lemma encodeParam_uint256 (n : Z) :
  encodeParam "uint256" (VBigint n) =
  if (n <? 0) || (maxUint256 <? n) then inl IntegerOutOfRangeError
  else inr (numberToHex n).
Proof. reflexivity. Qed.

Lemma encodeParam_address (a : Hex) :
  encodeParam "address" (VAddress a) =
  if isAddress a then inr (padHex a) else inl InvalidAddressError.
Proof. reflexivity. Qed.

(** The encoder on the arguments of [deposit], case by case. *)
Lemma depositData_cases (p : DepositParams) :
  depositData p =
  if (amount p <? 0) || (maxUint256 <? amount p) then inl IntegerOutOfRangeError
  else if isAddress (wallet p)
       then inr ("0x6e553f65" ++ numberToHex (amount p) ++ padHex (wallet p))
       else inl InvalidAddressError.
Proof.
  unfold depositData, encodeFunctionData.
  rewrite getAbiItem_deposit, deposit_signature, deposit_selector.
  unfold depositItem.
  cbn [AbiFunction.inputs AbiParameter.type encodeAbiParameters].
  rewrite encodeParam_uint256, encodeParam_address.
  destruct ((amount p <? 0) || (maxUint256 <? amount p)); [reflexivity|].
  destruct (isAddress (wallet p)); [|reflexivity].
  now rewrite append_empty.
Qed.

Lemma depositData_inr (p : DepositParams) (d : Hex) :
  depositData p = inr d ->
  d = "0x6e553f65" ++ numberToHex (amount p) ++ padHex (wallet p)
  /\ 0 <= amount p <= maxUint256
  /\ isAddress (wallet p) = true.
Proof.
  rewrite depositData_cases.
  destruct ((amount p <? 0) || (maxUint256 <? amount p)) eqn:Hr; [discriminate|].
  destruct (isAddress (wallet p)) eqn:Ha; [|discriminate].
  intros H.
  assert (Hd : d = "0x6e553f65" ++ numberToHex (amount p) ++ padHex (wallet p))
    by congruence.
  apply orb_false_iff in Hr as [H1 H2].
  apply Z.ltb_ge in H1, H2.
  repeat split; assumption.
Qed.

Lemma depositData_wellTyped (p : DepositParams) :
  0 <= amount p <= maxUint256 ->
  isAddress (wallet p) = true ->
  depositData p
  = inr ("0x6e553f65" ++ numberToHex (amount p) ++ padHex (wallet p)).
Proof.
  intros Hr Ha. rewrite depositData_cases, Ha.
  replace ((amount p <? 0) || (maxUint256 <? amount p)) with false;
    [reflexivity|].
  symmetry. apply orb_false_iff. split; apply Z.ltb_ge; tauto.
Qed.

Lemma length_numberToHex (n : Z) : String.length (numberToHex n) = 64%nat.
Proof. unfold numberToHex. now rewrite length_of_bytes, length_be_bytes. Qed.

Lemma all_digits_numberToHex (n : Z) : Hex.all_digits (numberToHex n) = true.
Proof. apply all_digits_of_bytes. Qed.

Lemma isAddress_shape (a : Hex) :
  isAddress a = true ->
  exists ds, a = String "0" (String "x" ds)
             /\ String.length ds = 40%nat /\ Hex.all_digits ds = true.
Proof.
  unfold isAddress. intros H.
  destruct a as [|c1 [|c2 ds]];
    try (destruct c1 as [[] [] [] [] [] [] [] []]; discriminate H).
  - discriminate H.
  - destruct c1 as [[] [] [] [] [] [] [] []]; try discriminate H.
    destruct c2 as [[] [] [] [] [] [] [] []]; try discriminate H.
    cbv beta iota in H.
    apply andb_true_iff in H as [H _].
    apply andb_true_iff in H as [Hl Hd].
    exists ds. repeat split; [now apply Nat.eqb_eq | exact Hd].
Qed.

Lemma padHex_address (a : Hex) :
  isAddress a = true ->
  String.length (padHex a) = 64%nat /\ Hex.all_digits (padHex a) = true.
Proof.
  intros (ds & -> & Hl & Hd)%isAddress_shape.
  unfold padHex, Hex.padStart.
  cbn [String.length Nat.sub substring].
  rewrite Nat.sub_0_r, substring_all.
  rewrite length_append, all_digits_append, length_repeat_zero,
    all_digits_repeat_zero, !length_toLowerCase, Hl.
  split; [reflexivity|].
  now rewrite all_digits_toLowerCase.
Qed.

(** The call data of a well-typed [deposit] call is the selector and
    two words: 4 + 32 + 32 bytes in hex. *)
Lemma depositData_callData (p : DepositParams) (d : Hex) :
  depositData p = inr d ->
  String.prefix (toFunctionSelector "deposit(uint256,address)") d = true
  /\ isCallData d = true
  /\ String.length d = (2 + 2 * (4 + 32 + 32))%nat.
Proof.
  intros (-> & _ & Ha)%depositData_inr.
  destruct (padHex_address _ Ha) as [Hl Hd].
  rewrite deposit_selector.
  split; [reflexivity | split].
  - change (isCallData
              (String "0" (String "x"
                 ("6e553f65" ++ numberToHex (amount p) ++ padHex (wallet p))))
            = true).
    cbn [isCallData].
    rewrite !all_digits_append, !length_append, all_digits_numberToHex, Hd,
      length_numberToHex, Hl.
    reflexivity.
  - change (S (S (String.length
                    ("6e553f65" ++ numberToHex (amount p) ++ padHex (wallet p))))
            = (2 + 2 * (4 + 32 + 32))%nat).
    rewrite !length_append, length_numberToHex, Hl. reflexivity.
Qed.

End EncoderFacts.

(** ** Running [deposit] *)

Lemma deposit_unfold {World RpcError : Type}
  (client : PublicClient World RpcError) (p : DepositParams) :
  deposit client p =
  (assetAddress <- await (readContract client (assetParams p)) ;;
   balance <- await (readContract client (balanceOfParams assetAddress p)) ;;
   if balance <? amount p then throw (Raised NotEnoughBalanceError) else
   allowance <- await (readContract client (allowanceParams assetAddress p)) ;;
   if allowance <? amount p then throw (Raised MissingAllowanceError) else
   maxDeposit <- await (readContract client (maxDepositParams p)) ;;
   if amount p >? maxDeposit then throw (Raised AmountExceedsMaxDepositError) else
   data <- encoded (depositData p) ;;
   gas <- await (estimateGas client (gasParams p data)) ;;
   resolve
     {| Transaction.data := data;
        Transaction.from := wallet p;
        Transaction.to := vault p;
        Transaction.value := 0;
        Transaction.gas := gas |}).
Proof. destruct p. reflexivity. Qed.

Section Runs.

Context {World RpcError : Type}.
Implicit Types (client : PublicClient World RpcError) (p : DepositParams).

Lemma spy_readContract client q (s : World * list (Event RpcError)) :
  readContract (spy client) q s =
  let '(r, w') := readContract client q (fst s) in
  (r, (w', (snd s ++ [ {| request := ReadContractCall q;
                          response := settled_map (toValue _) r |} ])%list)).
Proof. reflexivity. Qed.

Lemma spy_estimateGas client q (s : World * list (Event RpcError)) :
  estimateGas (spy client) q s =
  let '(r, w') := estimateGas client q (fst s) in
  (r, (w', (snd s ++ [ {| request := EstimateGasCall q;
                          response := settled_map VBigint r |} ])%list)).
Proof. reflexivity. Qed.

Ltac unfold_promises :=
  cbv beta iota zeta fix
    delta [bind await encoded resolve throw fst snd app settled_map].

Ltac reduce :=
  unfold_promises;
  rewrite ?spy_readContract, ?spy_estimateGas;
  unfold_promises.

(** Every invocation takes one of the courses of [Run]. *)
Lemma deposit_run client p w :
  Run client p w
    (fst (deposit client p w)) (snd (deposit client p w)) (trace client p w).
Proof.
  unfold trace. rewrite !deposit_unfold. reduce.
  destruct (readContract client (assetParams p) w) as [[a|e] w1] eqn:H1; reduce;
    [|exact (run_asset_rejected _ _ _ _ _ H1)].
  destruct (readContract client (balanceOfParams a p) w1) as [[balance|e] w2] eqn:H2;
    reduce; [|exact (run_balanceOf_rejected _ _ _ _ _ _ _ H1 H2)].
  destruct (Z.ltb_spec balance (amount p)) as [G1|G1]; reduce;
    [exact (run_not_enough_balance _ _ _ _ _ _ _ H1 H2 G1)|].
  destruct (readContract client (allowanceParams a p) w2) as [[allowance|e] w3] eqn:H3;
    reduce; [|exact (run_allowance_rejected _ _ _ _ _ _ _ _ _ H1 H2 G1 H3)].
  destruct (Z.ltb_spec allowance (amount p)) as [G2|G2]; reduce;
    [exact (run_missing_allowance _ _ _ _ _ _ _ _ _ H1 H2 G1 H3 G2)|].
  destruct (readContract client (maxDepositParams p) w3) as [[maxDeposit|e] w4] eqn:H4;
    reduce; [|exact (run_maxDeposit_rejected _ _ _ _ _ _ _ _ _ _ _ H1 H2 G1 H3 G2 H4)].
  rewrite !Z.gtb_ltb.
  destruct (Z.ltb_spec maxDeposit (amount p)) as [G3|G3]; reduce;
    [exact (run_exceeds_max_deposit _ _ _ _ _ _ _ _ _ _ _ H1 H2 G1 H3 G2 H4 G3)|].
  destruct (depositData p) as [err|data] eqn:H5; reduce;
    [exact (run_encoder_threw _ _ _ _ _ _ _ _ _ _ _ _ H1 H2 G1 H3 G2 H4 G3 H5)|].
  destruct (estimateGas client (gasParams p data) w4) as [[gas|e] w5] eqn:H6; reduce.
  - exact (run_fulfilled _ _ _ _ _ _ _ _ _ _ _ _ _ _ H1 H2 G1 H3 G2 H4 G3 H5 H6).
  - exact (run_estimateGas_rejected _ _ _ _ _ _ _ _ _ _ _ _ _ _ H1 H2 G1 H3 G2 H4 G3 H5 H6).
Qed.

End Runs.

Lemma deposit_course {World RpcError : Type}
  (client : PublicClient World RpcError) (p : DepositParams) (w : World) :
  exists r w' log,
    deposit client p w = (r, w') /\ trace client p w = log
    /\ Run client p w r w' log.
Proof.
  exists (fst (deposit client p w)), (snd (deposit client p w)), (trace client p w).
  split; [apply surjective_pairing | split; [reflexivity | apply deposit_run]].
Qed.

(** Two replies to the same request from the same world are the same
    reply. *)
Ltac same_replies :=
  repeat match goal with
    | H : ?x = _, H' : ?x = _ |- _ =>
        rewrite H in H';
        first [ discriminate H' | inversion H'; subst; clear H' ]
    | H : (_, _) = (_, _) |- _ =>
        first [ discriminate H | inversion H; subst; clear H ]
    end.

(** Case analysis on the course of [deposit client p w], keeping the
    courses that agree with the replies at hand. *)
Ltac courses client p w :=
  let R := fresh "R" in
  let Hd := fresh "Hd" in
  let Ht := fresh "Ht" in
  destruct (deposit_course client p w) as (?r & ?w' & ?log & Hd & Ht & R);
  rewrite ?Hd, ?Ht in *; clear Hd Ht;
  destruct R; same_replies; try (exfalso; lia).

(** ** The guards *)

Section Guards.

Context {World RpcError : Type}.
Variable client : PublicClient World RpcError.
Variable p : DepositParams.

(** C1. With the asset resolved and the balance read: a balance
    strictly below the amount rejects the call with
    [NotEnoughBalanceError] ("Not enough balance") after exactly the
    asset and balance reads, so no allowance or max-deposit query is
    issued; a balance at or above the amount (equality included) does
    not, and the allowance query is issued next. *)
Theorem deposit_balance_guard (w0 w1 w2 : World) (assetAddress : Hex) (balance : Z) :
  readContract client (assetParams p) w0 = (Fulfilled assetAddress, w1) ->
  readContract client (balanceOfParams assetAddress p) w1 = (Fulfilled balance, w2) ->
  (balance < amount p ->
     deposit client p w0 = (Rejected (Raised NotEnoughBalanceError), w2)
     /\ message NotEnoughBalanceError = "Not enough balance"
     /\ trace client p w0 =
          [ answered (ReadContractCall (assetParams p)) (VAddress assetAddress);
            answered (ReadContractCall (balanceOfParams assetAddress p))
                     (VBigint balance) ]
     /\ queried "allowance" (trace client p w0) = false
     /\ queried "maxDeposit" (trace client p w0) = false)
  /\ (amount p <= balance ->
      fst (deposit client p w0) <> Rejected (Raised NotEnoughBalanceError)
      /\ exists r rest,
          trace client p w0 =
            answered (ReadContractCall (assetParams p)) (VAddress assetAddress)
            :: answered (ReadContractCall (balanceOfParams assetAddress p))
                        (VBigint balance)
            :: {| request := ReadContractCall (allowanceParams assetAddress p);
                  response := r |}
            :: rest).
Proof.
  intros H1 H2. split; intros G.
  - courses client p w0. repeat split; reflexivity.
  - courses client p w0; (split; [discriminate|]); eexists; eexists; reflexivity.
Qed.

(** C2. With a sufficient balance and the allowance read: an allowance
    strictly below the amount rejects the call with
    [MissingAllowanceError] ("Not enough allowance"), the allowance
    read being the last request; an allowance at or above the amount
    (equality included) does not, and the max-deposit query is issued
    next. *)
Theorem deposit_allowance_guard (w0 w1 w2 w3 : World) (assetAddress : Hex)
  (balance allowance : Z) :
  readContract client (assetParams p) w0 = (Fulfilled assetAddress, w1) ->
  readContract client (balanceOfParams assetAddress p) w1 = (Fulfilled balance, w2) ->
  amount p <= balance ->
  readContract client (allowanceParams assetAddress p) w2 = (Fulfilled allowance, w3) ->
  (allowance < amount p ->
     deposit client p w0 = (Rejected (Raised MissingAllowanceError), w3)
     /\ message MissingAllowanceError = "Not enough allowance"
     /\ trace client p w0 =
          [ answered (ReadContractCall (assetParams p)) (VAddress assetAddress);
            answered (ReadContractCall (balanceOfParams assetAddress p))
                     (VBigint balance);
            answered (ReadContractCall (allowanceParams assetAddress p))
                     (VBigint allowance) ])
  /\ (amount p <= allowance ->
      fst (deposit client p w0) <> Rejected (Raised MissingAllowanceError)
      /\ exists r rest,
          trace client p w0 =
            answered (ReadContractCall (assetParams p)) (VAddress assetAddress)
            :: answered (ReadContractCall (balanceOfParams assetAddress p))
                        (VBigint balance)
            :: answered (ReadContractCall (allowanceParams assetAddress p))
                        (VBigint allowance)
            :: {| request := ReadContractCall (maxDepositParams p);
                  response := r |}
            :: rest).
Proof.
  intros H1 H2 G1 H3. split; intros G2.
  - courses client p w0. repeat split; reflexivity.
  - courses client p w0; (split; [discriminate|]); eexists; eexists; reflexivity.
Qed.

(** C3. With sufficient balance and allowance and the cap read: an
    amount strictly above [maxDeposit(wallet)] rejects the call with
    [AmountExceedsMaxDepositError] ("Amount exceeds max deposit"); an
    amount at or below the cap (a deposit exactly at the cap included)
    passes: the call is rejected by none of the three guards and goes
    on to encode the call and estimate its gas. *)
Theorem deposit_max_deposit_guard (w0 w1 w2 w3 w4 : World) (assetAddress : Hex)
  (balance allowance maxDeposit : Z) :
  readContract client (assetParams p) w0 = (Fulfilled assetAddress, w1) ->
  readContract client (balanceOfParams assetAddress p) w1 = (Fulfilled balance, w2) ->
  amount p <= balance ->
  readContract client (allowanceParams assetAddress p) w2 = (Fulfilled allowance, w3) ->
  amount p <= allowance ->
  readContract client (maxDepositParams p) w3 = (Fulfilled maxDeposit, w4) ->
  (maxDeposit < amount p ->
     deposit client p w0 = (Rejected (Raised AmountExceedsMaxDepositError), w4)
     /\ message AmountExceedsMaxDepositError = "Amount exceeds max deposit"
     /\ trace client p w0 =
          [ answered (ReadContractCall (assetParams p)) (VAddress assetAddress);
            answered (ReadContractCall (balanceOfParams assetAddress p))
                     (VBigint balance);
            answered (ReadContractCall (allowanceParams assetAddress p))
                     (VBigint allowance);
            answered (ReadContractCall (maxDepositParams p))
                     (VBigint maxDeposit) ])
  /\ (amount p <= maxDeposit ->
      (forall e, fst (deposit client p w0) <> Rejected (Raised e))
      /\ deposit client p w0 =
           (data <- encoded (depositData p) ;;
            gas <- await (estimateGas client (gasParams p data)) ;;
            resolve
              {| Transaction.data := data;
                 Transaction.from := wallet p;
                 Transaction.to := vault p;
                 Transaction.value := 0;
                 Transaction.gas := gas |}) w4).
Proof.
  intros H1 H2 G1 H3 G2 H4. split; intros G3.
  - courses client p w0. repeat split; reflexivity.
  - courses client p w0;
      (split; [intros k; discriminate|]);
      cbv beta iota delta [bind await encoded resolve throw];
      match goal with
      | H : depositData p = _ |- _ => rewrite H
      end;
      cbv beta iota delta [bind await encoded resolve throw];
      try match goal with
        | H : estimateGas _ _ _ = _ |- _ => rewrite H
        end;
      reflexivity.
Qed.

(** C9. A request for amount 0, on any chain state (any unsigned
    balance, allowance and cap, all zero included): none of the three
    guards rejects it and the call goes on to the encode and
    gas-estimation steps, which decide what it settles with.  When the
    wallet is a well-formed address, as the data model has it, the
    encoding succeeds and the gas estimation is requested for it. *)
Theorem deposit_zero_amount (w0 w1 w2 w3 w4 : World) (assetAddress : Hex)
  (balance allowance maxDeposit : Z) :
  amount p = 0 ->
  readContract client (assetParams p) w0 = (Fulfilled assetAddress, w1) ->
  readContract client (balanceOfParams assetAddress p) w1 = (Fulfilled balance, w2) ->
  readContract client (allowanceParams assetAddress p) w2 = (Fulfilled allowance, w3) ->
  readContract client (maxDepositParams p) w3 = (Fulfilled maxDeposit, w4) ->
  0 <= balance -> 0 <= allowance -> 0 <= maxDeposit ->
  (forall e, fst (deposit client p w0) <> Rejected (Raised e))
  /\ deposit client p w0 =
       (data <- encoded (depositData p) ;;
        gas <- await (estimateGas client (gasParams p data)) ;;
        resolve
          {| Transaction.data := data;
             Transaction.from := wallet p;
             Transaction.to := vault p;
             Transaction.value := 0;
             Transaction.gas := gas |}) w4
  /\ (Encoder.isAddress (wallet p) = true ->
      exists data r,
        depositData p = inr data
        /\ trace client p w0 =
             [ answered (ReadContractCall (assetParams p)) (VAddress assetAddress);
               answered (ReadContractCall (balanceOfParams assetAddress p))
                        (VBigint balance);
               answered (ReadContractCall (allowanceParams assetAddress p))
                        (VBigint allowance);
               answered (ReadContractCall (maxDepositParams p))
                        (VBigint maxDeposit);
               {| request := EstimateGasCall (gasParams p data); response := r |} ]).
Proof.
  intros Hz H1 H2 H3 H4 B1 B2 B3.
  courses client p w0;
    (split; [intros k; discriminate|]);
    (split;
     [ cbv beta iota delta [bind await encoded resolve throw];
       match goal with
       | H : depositData p = _ |- _ => rewrite H
       end;
       cbv beta iota delta [bind await encoded resolve throw];
       try match goal with
         | H : estimateGas _ _ _ = _ |- _ => rewrite H
         end;
       reflexivity
     | intros Ha ]).
  - exfalso.
    match goal with
    | H : depositData p = inl _ |- _ =>
        rewrite depositData_wellTyped in H; [discriminate H | | exact Ha]
    end.
    rewrite Hz. split; [reflexivity | discriminate].
  - eexists; eexists. split; [eassumption | reflexivity].
  - eexists; eexists. split; [eassumption | reflexivity].
Qed.

(** C10. The gas of the returned descriptor is the value the client's
    gas estimation was fulfilled with, whatever it is: nothing is
    added, rounded or checked.  (At [gas = 0] the call succeeds with
    a descriptor whose gas is 0.) *)
Theorem deposit_gas_is_estimate (w0 w1 w2 w3 w4 w5 : World) (assetAddress : Hex)
  (balance allowance maxDeposit : Z) (data : Hex) (gas : Z) :
  readContract client (assetParams p) w0 = (Fulfilled assetAddress, w1) ->
  readContract client (balanceOfParams assetAddress p) w1 = (Fulfilled balance, w2) ->
  amount p <= balance ->
  readContract client (allowanceParams assetAddress p) w2 = (Fulfilled allowance, w3) ->
  amount p <= allowance ->
  readContract client (maxDepositParams p) w3 = (Fulfilled maxDeposit, w4) ->
  amount p <= maxDeposit ->
  depositData p = inr data ->
  estimateGas client (gasParams p data) w4 = (Fulfilled gas, w5) ->
  deposit client p w0 =
    (Fulfilled {| Transaction.data := data;
                  Transaction.from := wallet p;
                  Transaction.to := vault p;
                  Transaction.value := 0;
                  Transaction.gas := gas |}, w5).
Proof.
  intros H1 H2 G1 H3 G2 H4 G3 H5 H6.
  courses client p w0. reflexivity.
Qed.

End Guards.

(** ** Successful calls *)

Section Fulfilled.

Context {World RpcError : Type}.
Variable client : PublicClient World RpcError.
Variable p : DepositParams.

Lemma deposit_fulfilled_inv (w w' : World) (tx : Transaction) :
  deposit client p w = (Fulfilled tx, w') ->
  exists w4 data gas,
    depositData p = inr data
    /\ estimateGas client (gasParams p data) w4 = (Fulfilled gas, w')
    /\ tx = {| Transaction.data := data;
               Transaction.from := wallet p;
               Transaction.to := vault p;
               Transaction.value := 0;
               Transaction.gas := gas |}.
Proof.
  intros H. courses client p w.
  eexists; eexists; eexists. split; [eassumption|]. split; [eassumption|].
  reflexivity.
Qed.

(** C4, as the code has it.  The descriptor of every successful call
    has [from] the wallet, [to] the vault, [value] 0, for [gas] the
    value the client's gas estimation was fulfilled with (so positive
    exactly when that estimate is), and for [data] well-formed call
    data, 4 + 32 + 32 bytes beginning with the selector of
    [deposit(uint256,address)]. *)
Theorem deposit_fulfilled_descriptor (w w' : World) (tx : Transaction) :
  deposit client p w = (Fulfilled tx, w') ->
  Transaction.from tx = wallet p
  /\ Transaction.to tx = vault p
  /\ Transaction.value tx = 0
  /\ (exists w4,
        estimateGas client (gasParams p (Transaction.data tx)) w4
        = (Fulfilled (Transaction.gas tx), w'))
  /\ String.prefix (Encoder.toFunctionSelector "deposit(uint256,address)")
                   (Transaction.data tx) = true
  /\ isCallData (Transaction.data tx) = true
  /\ String.length (Transaction.data tx) = (2 + 2 * (4 + 32 + 32))%nat.
Proof.
  intros (w4 & data & gas & He & Hg & ->)%deposit_fulfilled_inv.
  cbn [Transaction.from Transaction.to Transaction.value Transaction.gas
         Transaction.data].
  split; [reflexivity|]. split; [reflexivity|]. split; [reflexivity|].
  split; [exists w4; exact Hg|].
  exact (depositData_callData p data He).
Qed.

(** C7.  The [data] of every successful call is the ABI encoding of
    [deposit(uint256 assets, address receiver)] on the arguments
    [(amount, wallet)]: the selector, which is the first four bytes
    of the Keccak-256 digest of the canonical signature of the ABI
    entry, then the amount as a 32-byte big-endian word, then the
    address, in lower case, left-padded with zeros to 32 bytes. *)
Theorem deposit_data_encoding (w w' : World) (tx : Transaction) :
  deposit client p w = (Fulfilled tx, w') ->
  Encoder.encodeFunctionData ERC4626_ABI "deposit"
    [VBigint (amount p); VAddress (wallet p)] = inr (Transaction.data tx)
  /\ Transaction.data tx =
       Encoder.toFunctionSelector "deposit(uint256,address)"
       ++ Encoder.numberToHex (amount p) ++ Encoder.padHex (wallet p)
  /\ option_map Encoder.formatAbiItem (getAbiItem ERC4626_ABI "deposit")
       = Some "deposit(uint256,address)"
  /\ Encoder.toFunctionSelector "deposit(uint256,address)" = "0x6e553f65"
  /\ Encoder.numberToHex (amount p) = Hex.of_bytes (Hex.be_bytes 32 (amount p))
  /\ Hex.be_value (Hex.be_bytes 32 (amount p)) = amount p
  /\ String.length (Encoder.numberToHex (amount p)) = 64%nat
  /\ String.length (Encoder.padHex (wallet p)) = 64%nat
  /\ exists ds,
       wallet p = "0x" ++ ds
       /\ Encoder.padHex (wallet p)
          = "000000000000000000000000" ++ Hex.toLowerCase ds.
Proof.
  intros (w4 & data & gas & He & Hg & ->)%deposit_fulfilled_inv.
  cbn [Transaction.data].
  destruct (depositData_inr p data He) as (Hd & Hr & Ha).
  split; [exact He|].
  split; [rewrite deposit_selector; exact Hd|].
  split; [reflexivity|].
  split; [exact deposit_selector|].
  split; [reflexivity|].
  split.
  { apply be_value_be_bytes. unfold Encoder.maxUint256 in Hr.
    change (256 ^ Z.of_nat 32) with (2 ^ 256). lia. }
  split; [apply length_numberToHex|].
  split; [apply (padHex_address _ Ha)|].
  destruct (isAddress_shape _ Ha) as (ds & Hw & Hl & _).
  exists ds. split; [exact Hw|].
  rewrite Hw. unfold Encoder.padHex, Hex.padStart.
  cbn [String.length Nat.sub substring].
  rewrite Nat.sub_0_r, substring_all, length_toLowerCase, Hl.
  reflexivity.
Qed.

(** C8, as the code has it.  Two successful invocations with the same
    request (on any two states of the chain, all the more on two
    that give the same reads) return descriptors with the same
    [data], [from], [to] and [value]; the [gas] of each is the value
    its own gas estimation was fulfilled with, and the two may
    differ. *)
Theorem deposit_idempotent (w1 w1' w2 w2' : World) (tx1 tx2 : Transaction) :
  deposit client p w1 = (Fulfilled tx1, w1') ->
  deposit client p w2 = (Fulfilled tx2, w2') ->
  Transaction.data tx1 = Transaction.data tx2
  /\ Transaction.from tx1 = Transaction.from tx2
  /\ Transaction.to tx1 = Transaction.to tx2
  /\ Transaction.value tx1 = Transaction.value tx2
  /\ (exists v1,
        estimateGas client (gasParams p (Transaction.data tx1)) v1
        = (Fulfilled (Transaction.gas tx1), w1'))
  /\ (exists v2,
        estimateGas client (gasParams p (Transaction.data tx2)) v2
        = (Fulfilled (Transaction.gas tx2), w2')).
Proof.
  intros (v1 & d1 & g1 & He1 & Hg1 & ->)%deposit_fulfilled_inv
         (v2 & d2 & g2 & He2 & Hg2 & ->)%deposit_fulfilled_inv.
  cbn [Transaction.from Transaction.to Transaction.value Transaction.gas
         Transaction.data].
  assert (d1 = d2) as <- by congruence.
  split; [reflexivity|]. split; [reflexivity|]. split; [reflexivity|].
  split; [reflexivity|]. split; eexists; eassumption.
Qed.

End Fulfilled.

(** ** Order of the chain interactions, and failures of the client *)

Section Order.

Context {World RpcError : Type}.
Variable client : PublicClient World RpcError.
Variable p : DepositParams.

Ltac cases_of_In :=
  unfold answered, failed in *;
  cbn [map request In] in *;
  repeat match goal with
    | H : _ \/ _ |- _ => destruct H
    | H : False |- _ => destruct H
    end.

Ltac pick_asset k :=
  lazymatch goal with
  | |- context [VAddress ?a] => k a
  | _ => k EmptyString
  end.

Ltac pick_data k :=
  lazymatch goal with
  | |- context [gasParams p ?d] => k d
  | _ => k EmptyString
  end.

Ltac find_reply :=
  eexists; split;
  [ first [ left; reflexivity
          | right; left; reflexivity
          | right; right; left; reflexivity
          | right; right; right; left; reflexivity
          | right; right; right; right; left; reflexivity ]
  | assumption ].

(** C5.  The requests of an invocation are an initial segment, never
    empty, of the sequence asset, balanceOf, allowance, maxDeposit,
    gas estimation: in this order, none skipped, none repeated.  A
    later request is issued only when the guards before it passed,
    and when one of the three errors is raised the read of its guard
    is the last request of the invocation. *)
Theorem deposit_query_order (w : World) :
  exists assetAddress data n,
    (1 <= n <= 5)%nat
    /\ map request (trace client p w) = firstn n (pipeline p assetAddress data)
    /\ (issued (trace client p w) (ReadContractCall (allowanceParams assetAddress p)) ->
        passed (trace client p w) (ReadContractCall (balanceOfParams assetAddress p))
          (fun balance => amount p <= balance))
    /\ (issued (trace client p w) (ReadContractCall (maxDepositParams p)) ->
        passed (trace client p w) (ReadContractCall (balanceOfParams assetAddress p))
          (fun balance => amount p <= balance)
        /\ passed (trace client p w) (ReadContractCall (allowanceParams assetAddress p))
             (fun allowance => amount p <= allowance))
    /\ (issued (trace client p w) (EstimateGasCall (gasParams p data)) ->
        passed (trace client p w) (ReadContractCall (balanceOfParams assetAddress p))
          (fun balance => amount p <= balance)
        /\ passed (trace client p w) (ReadContractCall (allowanceParams assetAddress p))
             (fun allowance => amount p <= allowance)
        /\ passed (trace client p w) (ReadContractCall (maxDepositParams p))
             (fun maxDeposit => amount p <= maxDeposit)
        /\ depositData p = inr data)
    /\ (forall e,
          fst (deposit client p w) = Rejected (Raised e) ->
          map request (trace client p w)
          = firstn (requestsBefore e) (pipeline p assetAddress data)).
Proof.
  courses client p w; cbn [fst];
    pick_asset ltac:(fun a => exists a);
    pick_data ltac:(fun d => exists d);
    lazymatch goal with
    | |- exists n, _ /\ map request ?l = _ /\ _ => exists (List.length l)
    end;
    (split; [cbn [List.length]; lia|]);
    (split; [reflexivity|]);
    unfold issued, passed;
    repeat split; intros; cases_of_In; try discriminate;
    try find_reply;
    try assumption;
    try (match goal with H : Rejected _ = Rejected _ |- _ => inversion H end;
         reflexivity).
Qed.

(** C6.  When a request to the client is rejected (any of the four
    reads, or the gas estimation), the call is rejected with the very
    value the client rejected with: it is not one of the three errors
    of [deposit].  The rejected request is the last one of the
    invocation, every request before it was answered, and it is not
    issued a second time: nothing is retried and nothing is tried
    instead. *)
Theorem deposit_propagates_client_failure (w : World) (q : Request) (e : RpcError) :
  In (failed q e) (trace client p w) ->
  fst (deposit client p w) = Rejected (ClientRejected e)
  /\ (forall k, fst (deposit client p w) <> Rejected (Raised k))
  /\ exists earlier,
      trace client p w = (earlier ++ [failed q e])%list
      /\ Forall (fun ev => exists v, response ev = Fulfilled v) earlier
      /\ ~ issued earlier q.
Proof.
  intros H.
  courses client p w; cbn [fst]; cases_of_In; try discriminate;
    match goal with
    | E : {| request := _; response := Rejected _ |} = _ |- _ =>
        inversion E; subst; clear E
    end;
    (split; [reflexivity|]);
    (split; [intros k; discriminate|]);
    lazymatch goal with
    | |- exists earlier, ?l = _ /\ _ => exists (removelast l)
    end;
    cbn [removelast app];
    (split; [reflexivity|]);
    (split;
     [ repeat constructor; eexists; reflexivity
     | unfold issued; intros Hin; cases_of_In; discriminate ]).
Qed.

End Order.

(** ** The properties on the test chain

    Each property above, applied to a run on the test chain: the
    scenarios of the test suite (a balance of 1000 and an allowance of
    500 for an amount of 100; an empty wallet; an allowance of 10; a cap
    of 50; balance, allowance and cap all equal to the amount) and a few
    more. *)

Example scenario_A :
  deposit Mock.client (Mock.request 100)
    (Mock.chain 1000 500 Encoder.maxUint256 51234 [])
  = (Fulfilled (Mock.descriptor 100 51234),
     Mock.after 5 (Mock.chain 1000 500 Encoder.maxUint256 51234 [])).
Proof. vm_compute. reflexivity. Qed.

Example scenario_B :
  fst (deposit Mock.client (Mock.request 1)
         (Mock.chain 0 0 Encoder.maxUint256 51234 []))
  = Rejected (Raised NotEnoughBalanceError).
Proof. vm_compute. reflexivity. Qed.

Example scenario_C :
  fst (deposit Mock.client (Mock.request 100)
         (Mock.chain 1000 10 Encoder.maxUint256 51234 []))
  = Rejected (Raised MissingAllowanceError).
Proof. vm_compute. reflexivity. Qed.

Example scenario_D :
  fst (deposit Mock.client (Mock.request 100) (Mock.chain 1000 1000 50 51234 []))
  = Rejected (Raised AmountExceedsMaxDepositError).
Proof. vm_compute. reflexivity. Qed.

Example scenario_E :
  fst (deposit Mock.client (Mock.request 100) (Mock.chain 100 100 100 51234 []))
  = Fulfilled (Mock.descriptor 100 51234).
Proof. vm_compute. reflexivity. Qed.

(** An amount that is not a [uint256] passes the three comparisons
    when it is negative, and is then refused by the encoder. *)
Example negative_amount :
  fst (deposit Mock.client (Mock.request (-1)) (Mock.chain 100 100 100 51234 []))
  = Rejected (EncoderThrew Encoder.IntegerOutOfRangeError).
Proof. vm_compute. reflexivity. Qed.

(** C1 on an empty wallet asked for 1, and on a balance equal to the
    amount. *)
Lemma deposit_balance_guard_witness :
  deposit Mock.client (Mock.request 1) (Mock.chain 0 0 0 21000 [])
  = (Rejected (Raised NotEnoughBalanceError),
     Mock.after 2 (Mock.chain 0 0 0 21000 []))
  /\ fst (deposit Mock.client (Mock.request 100) (Mock.chain 100 100 100 21000 []))
     <> Rejected (Raised NotEnoughBalanceError).
Proof.
  split.
  - refine (proj1 (proj1 (deposit_balance_guard Mock.client (Mock.request 1)
                            (Mock.chain 0 0 0 21000 []) _ _ Mock.tokenAddress 0 _ _) _)).
    + reflexivity.
    + reflexivity.
    + reflexivity.
  - refine (proj1 (proj2 (deposit_balance_guard Mock.client (Mock.request 100)
                            (Mock.chain 100 100 100 21000 []) _ _
                            Mock.tokenAddress 100 _ _) _)).
    + reflexivity.
    + reflexivity.
    + discriminate.
Defined.

(** C2 on an allowance of 10 for an amount of 100, and on an allowance
    equal to the amount. *)
Lemma deposit_allowance_guard_witness :
  deposit Mock.client (Mock.request 100) (Mock.chain 1000 10 1000 21000 [])
  = (Rejected (Raised MissingAllowanceError),
     Mock.after 3 (Mock.chain 1000 10 1000 21000 []))
  /\ fst (deposit Mock.client (Mock.request 100) (Mock.chain 100 100 100 21000 []))
     <> Rejected (Raised MissingAllowanceError).
Proof.
  split.
  - refine (proj1 (proj1 (deposit_allowance_guard Mock.client (Mock.request 100)
                            (Mock.chain 1000 10 1000 21000 []) _ _ _
                            Mock.tokenAddress 1000 10 _ _ _ _) _)).
    + reflexivity.
    + reflexivity.
    + discriminate.
    + reflexivity.
    + reflexivity.
  - refine (proj1 (proj2 (deposit_allowance_guard Mock.client (Mock.request 100)
                            (Mock.chain 100 100 100 21000 []) _ _ _
                            Mock.tokenAddress 100 100 _ _ _ _) _)).
    + reflexivity.
    + reflexivity.
    + discriminate.
    + reflexivity.
    + discriminate.
Defined.

(** C3 on a cap of 50 for an amount of 100, and on a deposit exactly at
    the cap. *)
Lemma deposit_max_deposit_guard_witness :
  deposit Mock.client (Mock.request 100) (Mock.chain 1000 1000 50 21000 [])
  = (Rejected (Raised AmountExceedsMaxDepositError),
     Mock.after 4 (Mock.chain 1000 1000 50 21000 []))
  /\ fst (deposit Mock.client (Mock.request 100) (Mock.chain 100 100 100 21000 []))
     <> Rejected (Raised AmountExceedsMaxDepositError).
Proof.
  split.
  - refine (proj1 (proj1 (deposit_max_deposit_guard Mock.client (Mock.request 100)
                            (Mock.chain 1000 1000 50 21000 []) _ _ _ _
                            Mock.tokenAddress 1000 1000 50 _ _ _ _ _ _) _)).
    + reflexivity.
    + reflexivity.
    + discriminate.
    + reflexivity.
    + discriminate.
    + reflexivity.
    + reflexivity.
  - refine (proj1 (proj2 (deposit_max_deposit_guard Mock.client (Mock.request 100)
                            (Mock.chain 100 100 100 21000 []) _ _ _ _
                            Mock.tokenAddress 100 100 100 _ _ _ _ _ _) _)
                   AmountExceedsMaxDepositError).
    + reflexivity.
    + reflexivity.
    + discriminate.
    + reflexivity.
    + discriminate.
    + reflexivity.
    + discriminate.
Defined.

(** C4 as stated fails: on a chain whose gas estimate is 0 the call
    succeeds and the gas of the descriptor is not positive. *)
Lemma deposit_gas_positive_counterexample :
  exists tx w',
    deposit Mock.client (Mock.request 100)
      (Mock.chain 1000 500 Encoder.maxUint256 0 []) = (Fulfilled tx, w')
    /\ ~ Transaction.gas tx > 0.
Proof.
  exists (Mock.descriptor 100 0),
    (Mock.after 5 (Mock.chain 1000 500 Encoder.maxUint256 0 [])).
  split.
  - vm_compute. reflexivity.
  - intros H. discriminate H.
Qed.

(** C4, as the code has it, on the first scenario of the tests. *)
Lemma deposit_fulfilled_descriptor_witness :
  Transaction.from (Mock.descriptor 100 51234) = Mock.account
  /\ Transaction.to (Mock.descriptor 100 51234) = Mock.vaultAddress
  /\ Transaction.value (Mock.descriptor 100 51234) = 0
  /\ (exists w4,
        estimateGas Mock.client
          (gasParams (Mock.request 100) (Transaction.data (Mock.descriptor 100 51234)))
          w4
        = (Fulfilled (Transaction.gas (Mock.descriptor 100 51234)),
           Mock.after 5 (Mock.chain 1000 500 Encoder.maxUint256 51234 [])))
  /\ String.prefix (Encoder.toFunctionSelector "deposit(uint256,address)")
       (Transaction.data (Mock.descriptor 100 51234)) = true
  /\ isCallData (Transaction.data (Mock.descriptor 100 51234)) = true
  /\ String.length (Transaction.data (Mock.descriptor 100 51234))
     = (2 + 2 * (4 + 32 + 32))%nat.
Proof.
  apply (deposit_fulfilled_descriptor Mock.client (Mock.request 100)
           (Mock.chain 1000 500 Encoder.maxUint256 51234 [])).
  vm_compute. reflexivity.
Defined.

(** C6 on a node that rejects the gas estimation, and on one that
    rejects the balance read. *)
Lemma deposit_propagates_client_failure_witness :
  fst (deposit Mock.client (Mock.request 100)
         (Mock.chain 1000 500 1000 21000 ["estimateGas"]))
  = Rejected (ClientRejected "execution reverted")
  /\ fst (deposit Mock.client (Mock.request 100)
            (Mock.chain 1000 500 1000 21000 ["balanceOf"]))
     = Rejected (ClientRejected "request failed").
Proof.
  split.
  - refine (proj1 (deposit_propagates_client_failure Mock.client (Mock.request 100)
                     (Mock.chain 1000 500 1000 21000 ["estimateGas"])
                     (EstimateGasCall (gasParams (Mock.request 100) (Mock.callData 100)))
                     "execution reverted" _)).
    vm_compute. do 4 right. left. reflexivity.
  - refine (proj1 (deposit_propagates_client_failure Mock.client (Mock.request 100)
                     (Mock.chain 1000 500 1000 21000 ["balanceOf"])
                     (ReadContractCall (balanceOfParams Mock.tokenAddress (Mock.request 100)))
                     "request failed" _)).
    vm_compute. right. left. reflexivity.
Defined.

(** C7 on the first scenario of the tests: the call data is the
    selector [6e553f65], the word of 100 and the word of the account. *)
Lemma deposit_data_encoding_witness :
  Transaction.data (Mock.descriptor 100 51234)
  = Encoder.toFunctionSelector "deposit(uint256,address)"
      ++ Encoder.numberToHex (amount (Mock.request 100))
      ++ Encoder.padHex (wallet (Mock.request 100)).
Proof.
  refine (proj1 (proj2 (deposit_data_encoding Mock.client (Mock.request 100)
                          (Mock.chain 1000 500 Encoder.maxUint256 51234 [])
                          (Mock.after 5 (Mock.chain 1000 500 Encoder.maxUint256 51234 []))
                          (Mock.descriptor 100 51234) _))).
  vm_compute. reflexivity.
Defined.

(** C8 as stated fails: two successive invocations with the same
    request, on a chain that gives the same reads and estimates the gas
    at 0, both succeed, and neither descriptor has a positive gas. *)
Lemma deposit_twice_gas_positive_counterexample :
  exists tx1 w1 tx2 w2,
    deposit Mock.client (Mock.request 100) (Mock.chain 100 100 100 0 [])
    = (Fulfilled tx1, w1)
    /\ deposit Mock.client (Mock.request 100) w1 = (Fulfilled tx2, w2)
    /\ Transaction.data tx1 = Transaction.data tx2
    /\ ~ (Transaction.gas tx1 > 0 /\ Transaction.gas tx2 > 0).
Proof.
  exists (Mock.descriptor 100 0), (Mock.after 5 (Mock.chain 100 100 100 0 [])),
    (Mock.descriptor 100 0), (Mock.after 10 (Mock.chain 100 100 100 0 [])).
  split; [vm_compute; reflexivity|].
  split; [vm_compute; reflexivity|].
  split; [reflexivity|].
  intros [H _]. discriminate H.
Qed.

(** C8, as the code has it, on two states of the chain that differ in
    the gas estimate only: the descriptors agree on [data], [from], [to]
    and [value]. *)
Lemma deposit_idempotent_witness :
  Transaction.data (Mock.descriptor 100 51234) = Transaction.data (Mock.descriptor 100 52000)
  /\ Transaction.from (Mock.descriptor 100 51234) = Transaction.from (Mock.descriptor 100 52000)
  /\ Transaction.to (Mock.descriptor 100 51234) = Transaction.to (Mock.descriptor 100 52000)
  /\ Transaction.value (Mock.descriptor 100 51234)
     = Transaction.value (Mock.descriptor 100 52000).
Proof.
  pose proof (deposit_idempotent Mock.client (Mock.request 100)
                (Mock.chain 1000 500 1000 51234 [])
                (Mock.after 5 (Mock.chain 1000 500 1000 51234 []))
                (Mock.chain 1000 500 1000 52000 [])
                (Mock.after 5 (Mock.chain 1000 500 1000 52000 []))
                (Mock.descriptor 100 51234) (Mock.descriptor 100 52000)) as H.
  destruct H as (Hd & Hf & Ht & Hv & _).
  - vm_compute. reflexivity.
  - vm_compute. reflexivity.
  - exact (conj Hd (conj Hf (conj Ht Hv))).
Defined.

(** C9 on an empty wallet with no allowance and a cap of 0: the
    gas estimation is requested for the encoded zero deposit. *)
Lemma deposit_zero_amount_witness :
  fst (deposit Mock.client (Mock.request 0) (Mock.chain 0 0 0 21000 []))
  <> Rejected (Raised NotEnoughBalanceError)
  /\ deposit Mock.client (Mock.request 0) (Mock.chain 0 0 0 21000 []) =
       (data <- encoded (depositData (Mock.request 0)) ;;
        gas <- await (estimateGas Mock.client (gasParams (Mock.request 0) data)) ;;
        resolve
          {| Transaction.data := data;
             Transaction.from := wallet (Mock.request 0);
             Transaction.to := vault (Mock.request 0);
             Transaction.value := 0;
             Transaction.gas := gas |})
         (Mock.after 4 (Mock.chain 0 0 0 21000 []))
  /\ exists data r,
      depositData (Mock.request 0) = inr data
      /\ trace Mock.client (Mock.request 0) (Mock.chain 0 0 0 21000 []) =
           [ answered (ReadContractCall (assetParams (Mock.request 0)))
                      (VAddress Mock.tokenAddress);
             answered (ReadContractCall (balanceOfParams Mock.tokenAddress (Mock.request 0)))
                      (VBigint 0);
             answered (ReadContractCall (allowanceParams Mock.tokenAddress (Mock.request 0)))
                      (VBigint 0);
             answered (ReadContractCall (maxDepositParams (Mock.request 0)))
                      (VBigint 0);
             {| request := EstimateGasCall (gasParams (Mock.request 0) data);
                response := r |} ].
Proof.
  assert (H := deposit_zero_amount Mock.client (Mock.request 0)
                 (Mock.chain 0 0 0 21000 [])
                 (Mock.after 1 (Mock.chain 0 0 0 21000 []))
                 (Mock.after 2 (Mock.chain 0 0 0 21000 []))
                 (Mock.after 3 (Mock.chain 0 0 0 21000 []))
                 (Mock.after 4 (Mock.chain 0 0 0 21000 []))
                 Mock.tokenAddress 0 0 0).
  refine ((fun H' =>
             conj (proj1 H' NotEnoughBalanceError)
                  (conj (proj1 (proj2 H')) (proj2 (proj2 H') _)))
            (H _ _ _ _ _ _ _ _)).
  - vm_compute. reflexivity.
  - reflexivity.
  - reflexivity.
  - reflexivity.
  - reflexivity.
  - reflexivity.
  - discriminate.
  - discriminate.
  - discriminate.
Defined.

(** C10 at a gas estimate of 0: the call succeeds and the gas of the
    descriptor is 0. *)
Lemma deposit_gas_is_estimate_witness :
  deposit Mock.client (Mock.request 100) (Mock.chain 1000 500 1000 0 [])
  = (Fulfilled
       {| Transaction.data := Mock.callData 100;
          Transaction.from := wallet (Mock.request 100);
          Transaction.to := vault (Mock.request 100);
          Transaction.value := 0;
          Transaction.gas := 0 |},
     Mock.after 5 (Mock.chain 1000 500 1000 0 [])).
Proof.
  refine (deposit_gas_is_estimate Mock.client (Mock.request 100)
            (Mock.chain 1000 500 1000 0 []) _ _ _ _ _ Mock.tokenAddress 1000 500 1000
            (Mock.callData 100) 0 _ _ _ _ _ _ _ _ _).
  - reflexivity.
  - reflexivity.
  - discriminate.
  - reflexivity.
  - discriminate.
  - reflexivity.
  - discriminate.
  - vm_compute. reflexivity.
  - reflexivity.
Defined.

(** * The mock contracts *)

Section Mappings.

Import Solidity MockERC4626.

Lemma set_same (m : address -> Z) (k : address) (v : Z) : set m k v k = v.
Proof. unfold set. now rewrite Z.eqb_refl. Qed.

Lemma set_other (m : address -> Z) (k a : address) (v : Z) :
  a <> k -> set m k v a = m a.
Proof. intros H. unfold set. apply Z.eqb_neq in H. now rewrite H. Qed.

Lemma total_ext (m m' : address -> Z) (l : list address) :
  (forall a, In a l -> m' a = m a) -> total m' l = total m l.
Proof.
  induction l as [|a l IH]; intros H; [reflexivity|].
  cbn [total]. rewrite H by (left; reflexivity).
  rewrite IH; [reflexivity|]. intros b Hb. apply H. right. exact Hb.
Qed.

Lemma total_set_notin (m : address -> Z) (k : address) (v : Z) (l : list address) :
  ~ In k l -> total (set m k v) l = total m l.
Proof.
  intros H. apply total_ext. intros a Ha. apply set_other.
  intros ->. exact (H Ha).
Qed.

Lemma total_set_in (m : address -> Z) (k : address) (v : Z) (l : list address) :
  NoDup l -> In k l -> total (set m k v) l = total m l + v - m k.
Proof.
  induction l as [|a l IH]; intros Hn Hi; [destruct Hi|].
  inversion Hn as [|? ? Ha Hl]; subst. cbn [total].
  destruct Hi as [->|Hi].
  - rewrite set_same, total_set_notin by exact Ha. lia.
  - rewrite set_other by (intros ->; exact (Ha Hi)).
    rewrite IH by assumption. lia.
Qed.

Lemma total_nonneg (m : address -> Z) (l : list address) :
  (forall a, 0 <= m a) -> 0 <= total m l.
Proof.
  intros H. induction l as [|a l IH]; cbn [total]; [lia|].
  specialize (H a). lia.
Qed.

(** The sum over a list after [m[k] += d] (or [-= -d]). *)
Lemma total_set_bump (m : address -> Z) (k : address) (d : Z) (l : list address) :
  NoDup l ->
  total (set m k (m k + d)) l = total m l + (if in_dec Z.eq_dec k l then d else 0).
Proof.
  intros Hn. destruct (in_dec Z.eq_dec k l) as [Hi|Hi].
  - rewrite total_set_in by assumption. lia.
  - rewrite total_set_notin by assumption. lia.
Qed.

Lemma move_self (m : address -> Z) (a : address) (amount : Z) :
  move m a a amount a = m a.
Proof. unfold move. rewrite !set_same. lia. Qed.

Lemma move_from (m : address -> Z) (from to : address) (amount : Z) :
  from <> to -> move m from to amount from = m from - amount.
Proof. intros H. unfold move. now rewrite set_other, set_same. Qed.

Lemma move_to (m : address -> Z) (from to : address) (amount : Z) :
  from <> to -> move m from to amount to = m to + amount.
Proof.
  intros H. unfold move. rewrite set_same, set_other by congruence. reflexivity.
Qed.

Lemma move_other (m : address -> Z) (from to a : address) (amount : Z) :
  a <> from -> a <> to -> move m from to amount a = m a.
Proof. intros H1 H2. unfold move. now rewrite !set_other. Qed.

(** Moving an amount changes the sum over a list by what enters it
    minus what leaves it. *)
Lemma total_move (m : address -> Z) (from to : address) (amount : Z)
  (l : list address) :
  NoDup l ->
  total (move m from to amount) l
  = total m l
    + (if in_dec Z.eq_dec to l then amount else 0)
    - (if in_dec Z.eq_dec from l then amount else 0).
Proof.
  intros Hn. destruct (Z.eq_dec from to) as [<-|Hne].
  - rewrite (total_ext m).
    + destruct (in_dec Z.eq_dec from l); lia.
    + intros a _. destruct (Z.eq_dec a from) as [->|Ha].
      * apply move_self.
      * now apply move_other.
  - unfold move.
    rewrite (total_set_bump (set m from (m from - amount)) to amount l Hn).
    replace (set m from (m from - amount)) with (set m from (m from + - amount))
      by (f_equal; lia).
    rewrite (total_set_bump m from (- amount) l Hn).
    destruct (in_dec Z.eq_dec to l), (in_dec Z.eq_dec from l); lia.
Qed.

End Mappings.

Section TokenCalls.

Import Solidity.
Import MockERC20.

Ltac run_tx :=
  cbv beta iota zeta
    delta [mint approve transfer transferFrom andThen load store require add sub
             pure revert];
  repeat (cbv beta iota zeta;
          cbn [balanceOf allowance totalSupply with_balanceOf with_allowance
                 with_totalSupply];
          match goal with
          | |- context [if ?b then _ else _] => destruct b eqn:?
          end);
  cbv beta iota zeta;
  cbn [balanceOf allowance totalSupply with_balanceOf with_allowance
         with_totalSupply];
  first [reflexivity | congruence].

(** The outcome of [mint], whatever the state. *)
Lemma mint_outcome (to : address) (amount : Z) (s : State) :
  mint to amount s =
  if balanceOf s to + amount <=? uint256_max then
    if totalSupply s + amount <=? uint256_max then
      Returned (tt, with_totalSupply
                      (with_balanceOf s (set (balanceOf s) to (balanceOf s to + amount)))
                      (totalSupply s + amount))
    else Reverted (Panic 0x11)
  else Reverted (Panic 0x11).
Proof. run_tx. Qed.

(** The outcome of [transfer], whatever the state. *)
Lemma transfer_outcome (msg_sender to : address) (amount : Z) (s : State) :
  transfer msg_sender to amount s =
  if amount <=? balanceOf s msg_sender then
    if set (balanceOf s) msg_sender (balanceOf s msg_sender - amount) to + amount
       <=? uint256_max then
      Returned (true, with_balanceOf s (move (balanceOf s) msg_sender to amount))
    else Reverted (Panic 0x11)
  else Reverted (Error "Insufficient balance").
Proof. run_tx. Qed.

(** The outcome of [transferFrom], whatever the state. *)
Lemma transferFrom_outcome (msg_sender from to : address) (amount : Z) (s : State) :
  transferFrom msg_sender from to amount s =
  if amount <=? balanceOf s from then
    if amount <=? allowance s from msg_sender then
      if set (balanceOf s) from (balanceOf s from - amount) to + amount
         <=? uint256_max then
        Returned
          (true,
           with_allowance
             (with_balanceOf s (move (balanceOf s) from to amount))
             (set2 (allowance s) from msg_sender (allowance s from msg_sender - amount)))
      else Reverted (Panic 0x11)
    else Reverted (Error "Insufficient allowance")
  else Reverted (Error "Insufficient balance").
Proof. run_tx. Qed.

End TokenCalls.

Section VaultCalls.

Import Solidity.
Import MockERC4626.

Ltac run_vault :=
  cbv beta iota zeta
    delta [deposit withdraw setMaxDepositLimit andThen load store require add sub
             pure revert IERC20_transferFrom onToken deposited withdrawn];
  repeat (cbv beta iota zeta;
          cbn [tokenAddress token vaultAddress vault with_token with_vault
                 asset balanceOf totalSupply maxDepositLimit
                 with_balanceOf with_totalSupply with_maxDepositLimit negb];
          rewrite ?transferFrom_outcome;
          match goal with
          | |- context [if ?b then _ else _] => destruct b eqn:?
          end);
  cbv beta iota zeta;
  cbn [tokenAddress token vaultAddress vault with_token with_vault
         asset balanceOf totalSupply maxDepositLimit
         with_balanceOf with_totalSupply with_maxDepositLimit];
  first [reflexivity | congruence].

(** The outcome of [deposit], whatever the state of the chain. *)
Lemma deposit_outcome (msg_sender : address) (assets : Z) (receiver : address)
  (c : Chain) :
  deposit msg_sender assets receiver c =
  if assets <=? maxDepositLimit (vault c) then
    if asset (vault c) =? tokenAddress c then
      if assets <=? MockERC20.balanceOf (token c) msg_sender then
        if assets <=? MockERC20.allowance (token c) msg_sender (vaultAddress c) then
          if set (MockERC20.balanceOf (token c)) msg_sender
               (MockERC20.balanceOf (token c) msg_sender - assets) (vaultAddress c)
             + assets <=? uint256_max then
            if balanceOf (vault c) receiver + assets <=? uint256_max then
              if totalSupply (vault c) + assets <=? uint256_max then
                Returned (assets, deposited c msg_sender assets receiver)
              else Reverted (Panic 0x11)
            else Reverted (Panic 0x11)
          else Reverted (Panic 0x11)
        else Reverted (Error "Insufficient allowance")
      else Reverted (Error "Insufficient balance")
    else Reverted CallFailed
  else Reverted (Error "Exceeds max deposit").
Proof. run_vault. Qed.

(** The outcome of [withdraw], whatever the state of the chain. *)
Lemma withdraw_outcome (msg_sender : address) (assets : Z) (receiver owner : address)
  (c : Chain) :
  withdraw msg_sender assets receiver owner c =
  if assets <=? balanceOf (vault c) owner then
    if assets <=? totalSupply (vault c) then
      if asset (vault c) =? tokenAddress c then
        if assets <=? MockERC20.balanceOf (token c) (vaultAddress c) then
          if assets <=? MockERC20.allowance (token c) (vaultAddress c) (vaultAddress c) then
            if set (MockERC20.balanceOf (token c)) (vaultAddress c)
                 (MockERC20.balanceOf (token c) (vaultAddress c) - assets) receiver
               + assets <=? uint256_max then
              Returned (assets, withdrawn c assets receiver owner)
            else Reverted (Panic 0x11)
          else Reverted (Error "Insufficient allowance")
        else Reverted (Error "Insufficient balance")
      else Reverted CallFailed
    else Reverted (Panic 0x11)
  else Reverted (Error "Insufficient shares").
Proof. run_vault. Qed.

End VaultCalls.

Ltac sound_facts H :=
  destruct H as (Hne & Hasset & Hpos & Hbound & Hsupply & Hallow & Hvault
                 & Hbacked & Hshares & Hlimit).

Ltac project :=
  cbn [MockERC4626.tokenAddress MockERC4626.token MockERC4626.vaultAddress
         MockERC4626.vault MockERC4626.with_token MockERC4626.with_vault
         MockERC4626.asset MockERC4626.balanceOf MockERC4626.totalSupply
         MockERC4626.maxDepositLimit MockERC4626.with_balanceOf
         MockERC4626.with_totalSupply MockERC4626.with_maxDepositLimit
         MockERC20.balanceOf MockERC20.allowance MockERC20.totalSupply
         MockERC20.with_balanceOf MockERC20.with_allowance
         MockERC20.with_totalSupply] in *.

Ltac returned H :=
  cbv beta iota in H;
  match type of H with
  | context [if ?a <=? ?b then _ else _] =>
      destruct (Z.leb_spec a b); [returned H | discriminate H]
  | context [if ?a =? ?b then _ else _] =>
      destruct (Z.eqb_spec a b); [returned H | discriminate H]
  | Solidity.Returned _ = Solidity.Returned _ => inversion H; subst; clear H
  end.

Section Invariant.

Import Solidity.
Import MockERC4626.

Lemma set2_same (m : address -> address -> Z) (k1 k2 : address) (v : Z) :
  set2 m k1 k2 v k1 k2 = v.
Proof. unfold set2. now rewrite !Z.eqb_refl. Qed.

Lemma set2_other (m : address -> address -> Z) (k1 k2 a b : address) (v : Z) :
  a <> k1 \/ b <> k2 -> set2 m k1 k2 v a b = m a b.
Proof.
  intros H. unfold set2.
  destruct (Z.eqb_spec a k1), (Z.eqb_spec b k2); cbn [andb]; try reflexivity.
  exfalso. destruct H; congruence.
Qed.

Lemma move_zero (m : address -> Z) (from to a : address) :
  move m from to 0 a = m a.
Proof.
  unfold move, set.
  destruct (Z.eqb_spec a to), (Z.eqb_spec a from), (Z.eqb_spec to from);
    subst; try congruence; lia.
Qed.

Lemma move_nonneg (m : address -> Z) (from to a : address) (amount : Z) :
  (forall x, 0 <= m x) -> 0 <= amount <= m from ->
  0 <= move m from to amount a.
Proof.
  intros Hm Ha. unfold move, set.
  pose proof (Hm a). pose proof (Hm to). pose proof (Hm from).
  destruct (Z.eqb_spec a to), (Z.eqb_spec a from), (Z.eqb_spec to from);
    subst; try congruence; lia.
Qed.

(** Moving tokens between accounts keeps every set of accounts within
    the bound. *)
Lemma bounded_move (m : address -> Z) (from to : address) (amount bound : Z) :
  (forall l, NoDup l -> total m l <= bound) ->
  0 <= amount <= m from ->
  forall l, NoDup l -> total (move m from to amount) l <= bound.
Proof.
  intros Hb Ha l Hn. rewrite total_move by exact Hn.
  pose proof (Hb l Hn) as Hl.
  destruct (in_dec Z.eq_dec to l), (in_dec Z.eq_dec from l) as [Hf|Hf]; try lia.
  assert (Hn' : NoDup (from :: l)) by (constructor; assumption).
  specialize (Hb _ Hn'). cbn [total] in Hb. lia.
Qed.

Lemma bounded_mint (m : address -> Z) (to : address) (amount bound : Z) :
  (forall l, NoDup l -> total m l <= bound) ->
  0 <= amount ->
  forall l, NoDup l -> total (set m to (m to + amount)) l <= bound + amount.
Proof.
  intros Hb Ha l Hn. rewrite total_set_bump by exact Hn.
  specialize (Hb l Hn). destruct (in_dec Z.eq_dec to l); lia.
Qed.

(** In a sound state one account holds at most the supply, and two
    accounts together hold at most the supply. *)
Lemma sound_balance (c : Chain) (a : address) :
  Sound c ->
  0 <= MockERC20.balanceOf (token c) a <= MockERC20.totalSupply (token c).
Proof.
  intros (_ & _ & Hp & Hb & _). split; [apply Hp|].
  specialize (Hb [a]). cbn [total] in Hb.
  assert (NoDup [a]) by (constructor; [intros [] | constructor]).
  specialize (Hb H). lia.
Qed.

Lemma sound_two_balances (c : Chain) (a b : address) :
  Sound c -> a <> b ->
  MockERC20.balanceOf (token c) a + MockERC20.balanceOf (token c) b
  <= MockERC20.totalSupply (token c).
Proof.
  intros (_ & _ & _ & Hb & _) Hne.
  specialize (Hb [a; b]). cbn [total] in Hb.
  assert (NoDup [a; b]).
  { constructor; [intros [H|[]]; congruence|].
    constructor; [intros []|constructor]. }
  specialize (Hb H). lia.
Qed.

Lemma deploy_sound (deployer : address) (_initialSupply : Z)
  (tokenAddr vaultAddr : address) :
  uint256 _initialSupply -> tokenAddr <> vaultAddr ->
  Sound (deploy deployer _initialSupply tokenAddr vaultAddr).
Proof.
  intros Hs Hne. unfold Sound, deploy, constructor, MockERC20.constructor, uint256 in *.
  cbn [tokenAddress token vaultAddress vault asset balanceOf totalSupply
         maxDepositLimit MockERC20.balanceOf MockERC20.allowance
         MockERC20.totalSupply].
  assert (Hz : forall a, 0 <= set (fun _ => 0) deployer _initialSupply a).
  { intros a. unfold set. destruct (a =? deployer); lia. }
  repeat split; try assumption; try lia; try apply Hz.
  - intros l Hn.
    replace _initialSupply with (0 + _initialSupply) at 1 by lia.
    change (set (fun _ : address => 0) deployer (0 + _initialSupply))
      with (set (fun _ : address => 0) deployer ((fun _ : address => 0) deployer + _initialSupply)).
    rewrite total_set_bump by exact Hn.
    assert (total (fun _ => 0) l = 0) as ->.
    { clear. induction l; cbn [total]; lia. }
    destruct (in_dec Z.eq_dec deployer l); lia.
Qed.

Lemma mint_sound (c c' : Chain) (sender to : address) (amount : Z) :
  Sound c -> uint256 amount ->
  execute sender (Mint to amount) c = Returned c' -> Sound c'.
Proof.
  intros Hs [Ha _] He. sound_facts Hs.
  unfold execute, discard, onToken in He. rewrite mint_outcome in He.
  returned He.
  unfold Sound. project.
  split; [exact Hne|]. split; [exact Hasset|].
  split.
  { intros a. unfold set. pose proof (Hpos a). pose proof (Hpos to).
    destruct (a =? to); lia. }
  split; [exact (bounded_mint _ _ _ _ Hbound Ha)|].
  split; [assumption|]. split; [exact Hallow|]. split; [exact Hvault|].
  split.
  { unfold set. destruct (Z.eqb_spec (vaultAddress c) to) as [E|E];
      [rewrite <- E|]; lia. }
  split; [exact Hshares | exact Hlimit].
Qed.

Lemma approve_sound (c c' : Chain) (sender spender : address) (amount : Z) :
  Sound c -> sender <> vaultAddress c -> uint256 amount ->
  execute sender (Approve spender amount) c = Returned c' -> Sound c'.
Proof.
  intros Hs Hsender Ha He. sound_facts Hs.
  unfold execute, discard, onToken in He.
  change (MockERC20.approve sender spender amount (token c))
    with (Returned (A := bool * MockERC20.State)
            (true, MockERC20.with_allowance (token c)
                     (set2 (MockERC20.allowance (token c)) sender spender amount)))
    in He.
  returned He.
  unfold Sound. project.
  repeat (split; [assumption|]).
  split.
  { intros a b. unfold set2. destruct ((a =? sender) && (b =? spender));
      [exact Ha | apply Hallow]. }
  split; [|repeat (split; try assumption)].
  intros x. rewrite set2_other; [apply Hvault | left; congruence].
Qed.

Lemma transfer_sound (c c' : Chain) (sender to : address) (amount : Z) :
  Sound c -> sender <> vaultAddress c -> uint256 amount ->
  execute sender (Transfer to amount) c = Returned c' -> Sound c'.
Proof.
  intros Hs Hsender [Ha _] He. sound_facts Hs.
  unfold execute, discard, onToken in He. rewrite transfer_outcome in He.
  returned He.
  unfold Sound. project.
  split; [exact Hne|]. split; [exact Hasset|].
  split; [intros a; apply move_nonneg; [exact Hpos | lia]|].
  split; [apply bounded_move; [exact Hbound | lia]|].
  split; [assumption|]. split; [exact Hallow|]. split; [exact Hvault|].
  split; [|split; assumption].
  destruct (Z.eq_dec (vaultAddress c) to) as [E|Hto].
  - rewrite E in *. rewrite move_to by exact Hsender. lia.
  - rewrite move_other by congruence. lia.
Qed.

Lemma transferFrom_sound (c c' : Chain) (sender from to : address) (amount : Z) :
  Sound c -> sender <> vaultAddress c -> uint256 amount ->
  execute sender (TransferFrom from to amount) c = Returned c' -> Sound c'.
Proof.
  intros Hs Hsender [Ha _] He. sound_facts Hs.
  unfold execute, discard, onToken in He. rewrite transferFrom_outcome in He.
  returned He.
  unfold Sound. project.
  split; [exact Hne|]. split; [exact Hasset|].
  split; [intros a; apply move_nonneg; [exact Hpos | lia]|].
  split; [apply bounded_move; [exact Hbound | lia]|].
  split; [assumption|].
  split.
  { intros a b. unfold set2. pose proof (Hallow from sender) as [? ?].
    destruct ((a =? from) && (b =? sender)); [split; lia | apply Hallow]. }
  split.
  { intros x. unfold set2.
    destruct (Z.eqb_spec (vaultAddress c) from) as [E|E],
             (Z.eqb_spec x sender) as [E'|E']; cbn [andb];
      try apply Hvault.
    subst from x. pose proof (Hvault sender). lia. }
  split; [|split; assumption].
  destruct (Z.eq_dec from (vaultAddress c)) as [->|Hfrom].
  - assert (amount = 0) as -> by (pose proof (Hvault sender); lia).
    rewrite move_zero. lia.
  - destruct (Z.eq_dec (vaultAddress c) to) as [E|Hto].
    + rewrite E in *. rewrite move_to by congruence. lia.
    + rewrite move_other by congruence. lia.
Qed.

Lemma setMaxDepositLimit_sound (c c' : Chain) (sender : address) (_limit : Z) :
  Sound c -> uint256 _limit ->
  execute sender (SetMaxDepositLimit _limit) c = Returned c' -> Sound c'.
Proof.
  intros Hs Hl He. sound_facts Hs.
  unfold execute, discard, setMaxDepositLimit, store in He.
  returned He.
  unfold Sound. project.
  repeat (split; [assumption|]). exact Hl.
Qed.

Lemma deposit_sound (c c' : Chain) (sender : address) (assets : Z)
  (receiver : address) :
  Sound c -> sender <> vaultAddress c -> uint256 assets ->
  execute sender (Deposit assets receiver) c = Returned c' -> Sound c'.
Proof.
  intros Hs Hsender [Ha _] He. sound_facts Hs.
  unfold execute, discard in He. rewrite deposit_outcome in He.
  returned He.
  unfold Sound, deposited. project.
  split; [exact Hne|]. split; [exact Hasset|].
  split; [intros a; apply move_nonneg; [exact Hpos | lia]|].
  split; [apply bounded_move; [exact Hbound | lia]|].
  split; [assumption|].
  split.
  { intros a b. unfold set2. pose proof (Hallow sender (vaultAddress c)) as [? ?].
    destruct ((a =? sender) && (b =? vaultAddress c)); [split; lia | apply Hallow]. }
  split.
  { intros x. rewrite set2_other; [apply Hvault | left; congruence]. }
  split; [rewrite move_to by exact Hsender; lia|].
  split; [|exact Hlimit].
  intros a. unfold set. pose proof (Hshares a). pose proof (Hshares receiver).
  destruct (a =? receiver); lia.
Qed.

Lemma withdraw_sound (c c' : Chain) (sender : address) (assets : Z)
  (receiver owner : address) :
  Sound c -> uint256 assets ->
  execute sender (Withdraw assets receiver owner) c = Returned c' -> Sound c'.
Proof.
  intros Hs [Ha _] He. sound_facts Hs.
  unfold execute, discard in He. rewrite withdraw_outcome in He.
  returned He.
  assert (assets = 0) as ->
      by (pose proof (Hvault (vaultAddress c)); lia).
  unfold Sound, withdrawn. project.
  split; [exact Hne|]. split; [exact Hasset|].
  split; [intros a; rewrite move_zero; apply Hpos|].
  split.
  { intros l Hn. rewrite (total_ext (MockERC20.balanceOf (token c)));
      [apply Hbound; exact Hn | intros a _; apply move_zero]. }
  split; [assumption|].
  split.
  { intros a b. unfold set2. rewrite Hvault.
    destruct ((a =? vaultAddress c) && (b =? vaultAddress c));
      [unfold uint256, uint256_max; lia | apply Hallow]. }
  split.
  { intros x. unfold set2. rewrite !Hvault. destruct (_ && _); reflexivity. }
  split; [rewrite move_zero; lia|].
  split; [|exact Hlimit].
  intros a. unfold set. pose proof (Hshares a). pose proof (Hshares owner).
  destruct (a =? owner); lia.
Qed.

(** Every state of the chain is sound. *)
Lemma reachable_sound (c : Chain) : Reachable c -> Sound c.
Proof.
  induction 1 as [deployer supply tokenAddr vaultAddr Hs Hne
                 | c sender call c' Hr IH Hsender Hw He].
  - now apply deploy_sound.
  - destruct call; cbn [wellFormed] in Hw.
    + exact (mint_sound _ _ _ _ _ IH Hw He).
    + exact (approve_sound _ _ _ _ _ IH Hsender Hw He).
    + exact (transfer_sound _ _ _ _ _ IH Hsender Hw He).
    + exact (transferFrom_sound _ _ _ _ _ _ IH Hsender Hw He).
    + exact (setMaxDepositLimit_sound _ _ _ _ IH Hw He).
    + exact (deposit_sound _ _ _ _ _ IH Hsender Hw He).
    + exact (withdraw_sound _ _ _ _ _ _ IH Hw He).
Qed.

End Invariant.

Section Supply.

Import Solidity.
Import MockERC4626.

Lemma holders_mint (m : address -> Z) (supply : Z) (to : address) (amount : Z) :
  SumOfBalances m supply ->
  SumOfBalances (set m to (m to + amount)) (supply + amount).
Proof.
  intros (l & Hn & Hz & Ht).
  destruct (in_dec Z.eq_dec to l) as [Hi|Hi].
  - exists l. split; [exact Hn|]. split.
    + intros a Ha. rewrite set_other; [now apply Hz | intros ->; exact (Ha Hi)].
    + rewrite total_set_bump by exact Hn.
      destruct (in_dec Z.eq_dec to l); [lia | contradiction].
  - exists (to :: l). split; [constructor; assumption|]. split.
    + intros a Ha. rewrite set_other.
      * apply Hz. intros H. apply Ha. right. exact H.
      * intros ->. apply Ha. left. reflexivity.
    + cbn [total]. rewrite set_same, total_set_notin by exact Hi.
      rewrite (Hz to Hi). lia.
Qed.

Lemma holders_move (m : address -> Z) (supply : Z) (from to : address) (amount : Z) :
  SumOfBalances m supply -> 0 <= amount <= m from ->
  SumOfBalances (move m from to amount) supply.
Proof.
  intros (l & Hn & Hz & Ht) Ha.
  destruct (Z.eq_dec amount 0) as [->|Hpos].
  { exists l. split; [exact Hn|]. split.
    - intros a Hi. rewrite move_zero. now apply Hz.
    - rewrite (total_ext m); [exact Ht | intros a _; apply move_zero]. }
  assert (Hf : In from l).
  { destruct (in_dec Z.eq_dec from l) as [H|H]; [exact H|].
    specialize (Hz from H). lia. }
  destruct (in_dec Z.eq_dec to l) as [Hi|Hi].
  - exists l. split; [exact Hn|]. split.
    + intros a Hna. rewrite move_other; [now apply Hz | |]; intros ->; contradiction.
    + rewrite total_move by exact Hn.
      destruct (in_dec Z.eq_dec to l), (in_dec Z.eq_dec from l);
        try contradiction; lia.
  - assert (Hn' : NoDup (to :: l)) by (constructor; assumption).
    exists (to :: l). split; [exact Hn'|]. split.
    + intros a Hna. rewrite move_other.
      * apply Hz. intros H. apply Hna. right. exact H.
      * intros ->. apply Hna. right. exact Hf.
      * intros ->. apply Hna. left. reflexivity.
    + rewrite total_move by exact Hn'.
      destruct (in_dec Z.eq_dec to (to :: l)) as [_|H];
        [|exfalso; apply H; left; reflexivity].
      destruct (in_dec Z.eq_dec from (to :: l)) as [_|H];
        [|exfalso; apply H; right; exact Hf].
      cbn [total]. rewrite (Hz to Hi). lia.
Qed.

(** In every state of the chain the supply of the token is the sum of
    its balances. *)
Lemma reachable_supply (c : Chain) :
  Reachable c ->
  SumOfBalances (MockERC20.balanceOf (token c)) (MockERC20.totalSupply (token c)).
Proof.
  induction 1 as [deployer supply tokenAddr vaultAddr Hs Hne
                 | c sender call c' Hr IH Hsender Hw He].
  - unfold deploy, MockERC20.constructor. project.
    exists [deployer]. split; [constructor; [intros []|constructor]|]. split.
    + intros a Ha. apply set_other. intros ->. apply Ha. left. reflexivity.
    + cbn [total]. rewrite set_same. lia.
  - destruct call as [to n | spender n | to n | from to n | n | n receiver
                      | n receiver owner];
      cbn [wellFormed] in Hw; destruct Hw as [Hw _];
      unfold execute, discard, onToken in He.
    + rewrite mint_outcome in He. returned He. project.
      now apply holders_mint.
    + change (MockERC20.approve sender spender n (token c))
        with (Returned (A := bool * MockERC20.State)
                (true, MockERC20.with_allowance (token c)
                         (set2 (MockERC20.allowance (token c)) sender spender n)))
        in He.
      returned He. project. exact IH.
    + rewrite transfer_outcome in He. returned He. project.
      apply holders_move; [exact IH | lia].
    + rewrite transferFrom_outcome in He. returned He. project.
      apply holders_move; [exact IH | lia].
    + unfold setMaxDepositLimit, store in He. returned He. project. exact IH.
    + rewrite deposit_outcome in He. returned He. unfold deposited. project.
      apply holders_move; [exact IH | lia].
    + rewrite withdraw_outcome in He. returned He. unfold withdrawn. project.
      apply holders_move; [exact IH | lia].
Qed.

End Supply.

(** ** Calls on a reachable chain

    On a state of the chain the checked additions of the contracts
    cannot overflow, so each call reverts only where it says so. *)

Section OnReachable.

Import Solidity.
Import MockERC4626.

Variable c : Chain.
Hypothesis reachable : Reachable c.

Lemma credit_fits (from to : address) (amount : Z) :
  0 <= amount <= MockERC20.balanceOf (token c) from ->
  set (MockERC20.balanceOf (token c)) from
    (MockERC20.balanceOf (token c) from - amount) to + amount <= uint256_max.
Proof.
  intros Ha. pose proof (reachable_sound c reachable) as Hs.
  pose proof (sound_balance c from Hs).
  destruct (Z.eq_dec to from) as [->|Hne].
  - rewrite set_same. destruct Hs as (_ & _ & _ & _ & Hsupply & _). lia.
  - rewrite set_other by exact Hne.
    pose proof (sound_two_balances c to from Hs Hne).
    destruct Hs as (_ & _ & _ & _ & Hsupply & _). lia.
Qed.

Lemma mint_on_reachable (sender to : address) (amount : Z) :
  uint256 amount ->
  execute sender (Mint to amount) c =
  if MockERC20.totalSupply (token c) + amount <=? uint256_max
  then Returned
         (with_token c
            (MockERC20.with_totalSupply
               (MockERC20.with_balanceOf (token c)
                  (set (MockERC20.balanceOf (token c)) to
                     (MockERC20.balanceOf (token c) to + amount)))
               (MockERC20.totalSupply (token c) + amount)))
  else Reverted (Panic 0x11).
Proof.
  intros [Ha _]. pose proof (reachable_sound c reachable) as Hs.
  unfold execute, discard, onToken. rewrite mint_outcome.
  pose proof (sound_balance c to Hs).
  destruct (Z.leb_spec (MockERC20.totalSupply (token c) + amount) uint256_max)
    as [Ht|Ht];
    destruct (Z.leb_spec (MockERC20.balanceOf (token c) to + amount) uint256_max);
    try reflexivity; lia.
Qed.

Lemma transfer_on_reachable (sender to : address) (amount : Z) :
  uint256 amount ->
  execute sender (Transfer to amount) c =
  if amount <=? MockERC20.balanceOf (token c) sender
  then Returned
         (with_token c
            (MockERC20.with_balanceOf (token c)
               (move (MockERC20.balanceOf (token c)) sender to amount)))
  else Reverted (Error "Insufficient balance").
Proof.
  intros [Ha _].
  unfold execute, discard, onToken. rewrite transfer_outcome.
  destruct (Z.leb_spec amount (MockERC20.balanceOf (token c) sender)) as [Hb|Hb];
    [|reflexivity].
  pose proof (credit_fits sender to amount (conj Ha Hb)) as Ho.
  apply Z.leb_le in Ho. rewrite Ho. reflexivity.
Qed.

Lemma transferFrom_on_reachable (sender from to : address) (amount : Z) :
  uint256 amount ->
  execute sender (TransferFrom from to amount) c =
  if amount <=? MockERC20.balanceOf (token c) from then
    if amount <=? MockERC20.allowance (token c) from sender then
      Returned
        (with_token c
           (MockERC20.with_allowance
              (MockERC20.with_balanceOf (token c)
                 (move (MockERC20.balanceOf (token c)) from to amount))
              (set2 (MockERC20.allowance (token c)) from sender
                 (MockERC20.allowance (token c) from sender - amount))))
    else Reverted (Error "Insufficient allowance")
  else Reverted (Error "Insufficient balance").
Proof.
  intros [Ha _].
  unfold execute, discard, onToken. rewrite transferFrom_outcome.
  destruct (Z.leb_spec amount (MockERC20.balanceOf (token c) from)) as [Hb|Hb];
    [|reflexivity].
  destruct (amount <=? MockERC20.allowance (token c) from sender); [|reflexivity].
  pose proof (credit_fits from to amount (conj Ha Hb)) as Ho.
  apply Z.leb_le in Ho. rewrite Ho. reflexivity.
Qed.

Lemma deposit_on_reachable (sender : address) (assets : Z) (receiver : address) :
  sender <> vaultAddress c ->
  uint256 assets ->
  execute sender (Deposit assets receiver) c =
  if assets <=? maxDepositLimit (vault c) then
    if assets <=? MockERC20.balanceOf (token c) sender then
      if assets <=? MockERC20.allowance (token c) sender (vaultAddress c) then
        Returned (deposited c sender assets receiver)
      else Reverted (Error "Insufficient allowance")
    else Reverted (Error "Insufficient balance")
  else Reverted (Error "Exceeds max deposit").
Proof.
  intros Hsender [Ha _]. pose proof (reachable_sound c reachable) as Hs.
  unfold execute, discard. rewrite deposit_outcome.
  destruct (assets <=? maxDepositLimit (vault c)); [|reflexivity].
  replace (asset (vault c) =? tokenAddress c) with true
    by (symmetry; apply Z.eqb_eq; apply Hs).
  destruct (Z.leb_spec assets (MockERC20.balanceOf (token c) sender)) as [Hb|Hb];
    [|reflexivity].
  destruct (assets <=? MockERC20.allowance (token c) sender (vaultAddress c));
    [|reflexivity].
  pose proof (credit_fits sender (vaultAddress c) assets (conj Ha Hb)) as Ho.
  pose proof (sound_two_balances c sender (vaultAddress c) Hs Hsender).
  sound_facts Hs. pose proof (Hshares receiver).
  apply Z.leb_le in Ho. rewrite Ho.
  replace (balanceOf (vault c) receiver + assets <=? uint256_max) with true
    by (symmetry; apply Z.leb_le; lia).
  replace (totalSupply (vault c) + assets <=? uint256_max) with true
    by (symmetry; apply Z.leb_le; lia).
  reflexivity.
Qed.

Lemma withdraw_on_reachable (sender : address) (assets : Z) (receiver owner : address) :
  uint256 assets ->
  execute sender (Withdraw assets receiver owner) c =
  if assets <=? balanceOf (vault c) owner then
    if assets <=? 0 then Returned (withdrawn c assets receiver owner)
    else Reverted (Error "Insufficient allowance")
  else Reverted (Error "Insufficient shares").
Proof.
  intros [Ha _]. pose proof (reachable_sound c reachable) as Hs.
  unfold execute, discard. rewrite withdraw_outcome.
  destruct (Z.leb_spec assets (balanceOf (vault c) owner)) as [Hb|Hb]; [|reflexivity].
  sound_facts Hs. pose proof (Hshares owner).
  replace (assets <=? totalSupply (vault c)) with true
    by (symmetry; apply Z.leb_le; lia).
  replace (asset (vault c) =? tokenAddress c) with true
    by (symmetry; apply Z.eqb_eq; assumption).
  replace (assets <=? MockERC20.balanceOf (token c) (vaultAddress c)) with true
    by (symmetry; apply Z.leb_le; lia).
  rewrite Hvault.
  destruct (Z.leb_spec assets 0) as [Hz|Hz]; [|reflexivity].
  assert (assets = 0) as -> by lia.
  assert (Hfit : set (MockERC20.balanceOf (token c)) (vaultAddress c)
                   (MockERC20.balanceOf (token c) (vaultAddress c) - 0) receiver + 0
                 <= uint256_max) by (apply credit_fits; lia).
  apply Z.leb_le in Hfit. rewrite Hfit. reflexivity.
Qed.

End OnReachable.

(** ** The chain of the tests is reachable *)

Lemma fixture_reachable :
  MockERC4626.Reachable Fixture.deployed
  /\ MockERC4626.Reachable Fixture.minted
  /\ MockERC4626.Reachable Fixture.funded
  /\ MockERC4626.Reachable Fixture.invested
  /\ MockERC4626.Reachable Fixture.capped.
Proof.
  assert (H0 : MockERC4626.Reachable Fixture.deployed).
  { apply MockERC4626.Deployed; [split; discriminate | discriminate]. }
  assert (H1 : MockERC4626.Reachable Fixture.minted).
  { apply (MockERC4626.Mined Fixture.deployed Fixture.account
             (MockERC4626.Mint Fixture.account 1000)); try assumption.
    - discriminate.
    - split; discriminate.
    - vm_compute. reflexivity. }
  assert (H2 : MockERC4626.Reachable Fixture.funded).
  { apply (MockERC4626.Mined Fixture.minted Fixture.account
             (MockERC4626.Approve Fixture.vaultAddress 500)); try assumption.
    - discriminate.
    - split; discriminate.
    - vm_compute. reflexivity. }
  repeat split; try assumption.
  - apply (MockERC4626.Mined Fixture.funded Fixture.account
             (MockERC4626.Deposit 100 Fixture.account)); try assumption.
    + discriminate.
    + split; discriminate.
    + vm_compute. reflexivity.
  - apply (MockERC4626.Mined Fixture.funded Fixture.account
             (MockERC4626.SetMaxDepositLimit 50)); try assumption.
    + discriminate.
    + split; discriminate.
    + vm_compute. reflexivity.
Qed.

Lemma deployed_reachable : MockERC4626.Reachable Fixture.deployed.
Proof. apply fixture_reachable. Qed.

Lemma funded_reachable : MockERC4626.Reachable Fixture.funded.
Proof. apply fixture_reachable. Qed.

Lemma invested_reachable : MockERC4626.Reachable Fixture.invested.
Proof. apply fixture_reachable. Qed.

Lemma capped_reachable : MockERC4626.Reachable Fixture.capped.
Proof. apply fixture_reachable. Qed.

(** ** The token *)

Section TokenProperties.

Import Solidity.
Import MockERC4626.

Variable c : Chain.

(** X1. In every state of the chain the total supply of the token is
    the sum of the balances of its holders; hence no set of accounts
    holds more than the supply, and the supply is a [uint256]. *)
Theorem token_supply_is_sum_of_balances :
  Reachable c ->
  SumOfBalances (MockERC20.balanceOf (token c)) (MockERC20.totalSupply (token c))
  /\ (forall l, NoDup l ->
        0 <= total (MockERC20.balanceOf (token c)) l
          <= MockERC20.totalSupply (token c))
  /\ uint256 (MockERC20.totalSupply (token c)).
Proof.
  intros Hr. pose proof (reachable_sound c Hr) as Hs.
  sound_facts Hs.
  split; [exact (reachable_supply c Hr)|]. split.
  - intros l Hn. split; [now apply total_nonneg | now apply Hbound].
  - split; [|exact Hsupply].
    specialize (Hbound [] (NoDup_nil _)). exact Hbound.
Qed.

(** X2. On a state of the chain [transfer] reverts only for want of
    balance, with ["Insufficient balance"], never on overflow.  When
    it succeeds the amount has moved from the sender to the recipient
    (a transfer to oneself changes nothing), and no other balance,
    no allowance, the supply and the vault are touched. *)
Theorem token_transfer_exact (sender to : address) (amount : Z) :
  Reachable c ->
  uint256 amount ->
  (MockERC20.balanceOf (token c) sender < amount ->
   execute sender (Transfer to amount) c = Reverted (Error "Insufficient balance"))
  /\ (amount <= MockERC20.balanceOf (token c) sender ->
      exists c',
        execute sender (Transfer to amount) c = Returned c'
        /\ (sender <> to ->
            MockERC20.balanceOf (token c') sender
            = MockERC20.balanceOf (token c) sender - amount
            /\ MockERC20.balanceOf (token c') to
               = MockERC20.balanceOf (token c) to + amount)
        /\ (sender = to ->
            MockERC20.balanceOf (token c') sender
            = MockERC20.balanceOf (token c) sender)
        /\ (forall a, a <> sender -> a <> to ->
            MockERC20.balanceOf (token c') a = MockERC20.balanceOf (token c) a)
        /\ MockERC20.totalSupply (token c') = MockERC20.totalSupply (token c)
        /\ MockERC20.allowance (token c') = MockERC20.allowance (token c)
        /\ vault c' = vault c).
Proof.
  intros Hr Ha. rewrite (transfer_on_reachable c Hr sender to amount Ha).
  split; intros Hb.
  - apply Z.leb_gt in Hb. rewrite Hb. reflexivity.
  - apply Z.leb_le in Hb. rewrite Hb. eexists. split; [reflexivity|]. project.
    split; [intros Hne; split; [now apply move_from | now apply move_to]|].
    split; [intros <-; apply move_self|].
    split; [intros a Hother1 Hother2; now apply move_other|].
    repeat split.
Qed.

(** X3. On a state of the chain [transferFrom] checks the balance of
    the owner first and the allowance of the caller second, and
    reverts for nothing else.  When it succeeds the amount has moved
    and the allowance of the caller has gone down by exactly the
    amount; no other allowance changes. *)
Theorem token_transferFrom_exact (sender from to : address) (amount : Z) :
  Reachable c ->
  uint256 amount ->
  (MockERC20.balanceOf (token c) from < amount ->
   execute sender (TransferFrom from to amount) c
   = Reverted (Error "Insufficient balance"))
  /\ (amount <= MockERC20.balanceOf (token c) from ->
      MockERC20.allowance (token c) from sender < amount ->
      execute sender (TransferFrom from to amount) c
      = Reverted (Error "Insufficient allowance"))
  /\ (amount <= MockERC20.balanceOf (token c) from ->
      amount <= MockERC20.allowance (token c) from sender ->
      exists c',
        execute sender (TransferFrom from to amount) c = Returned c'
        /\ MockERC20.allowance (token c') from sender
           = MockERC20.allowance (token c) from sender - amount
        /\ (forall a b, a <> from \/ b <> sender ->
            MockERC20.allowance (token c') a b = MockERC20.allowance (token c) a b)
        /\ (from <> to ->
            MockERC20.balanceOf (token c') from
            = MockERC20.balanceOf (token c) from - amount
            /\ MockERC20.balanceOf (token c') to
               = MockERC20.balanceOf (token c) to + amount)
        /\ (from = to ->
            MockERC20.balanceOf (token c') from = MockERC20.balanceOf (token c) from)
        /\ (forall a, a <> from -> a <> to ->
            MockERC20.balanceOf (token c') a = MockERC20.balanceOf (token c) a)
        /\ MockERC20.totalSupply (token c') = MockERC20.totalSupply (token c)).
Proof.
  intros Hr Ha. rewrite (transferFrom_on_reachable c Hr sender from to amount Ha).
  split; [|split].
  - intros Hb. apply Z.leb_gt in Hb. rewrite Hb. reflexivity.
  - intros Hb Hal. apply Z.leb_le in Hb. apply Z.leb_gt in Hal.
    rewrite Hb, Hal. reflexivity.
  - intros Hb Hal. apply Z.leb_le in Hb. apply Z.leb_le in Hal.
    rewrite Hb, Hal. eexists. split; [reflexivity|]. project.
    split; [apply set2_same|].
    split; [intros a b Hother; now apply set2_other|].
    split; [intros Hne; split; [now apply move_from | now apply move_to]|].
    split; [intros <-; apply move_self|].
    split; [intros a Hother1 Hother2; now apply move_other | reflexivity].
Qed.

(** X4. [mint] has no access control: on a state of the chain any
    sender mints any amount to any account as long as the supply stays
    a [uint256], and the call reverts with [Panic(0x11)] beyond that.
    A successful mint adds the amount to the balance of the recipient
    and to the supply, and to nothing else. *)
Theorem token_mint_exact (sender to : address) (amount : Z) :
  Reachable c ->
  uint256 amount ->
  (uint256_max < MockERC20.totalSupply (token c) + amount ->
   execute sender (Mint to amount) c = Reverted (Panic 0x11))
  /\ (MockERC20.totalSupply (token c) + amount <= uint256_max ->
      exists c',
        execute sender (Mint to amount) c = Returned c'
        /\ MockERC20.balanceOf (token c') to
           = MockERC20.balanceOf (token c) to + amount
        /\ (forall a, a <> to ->
            MockERC20.balanceOf (token c') a = MockERC20.balanceOf (token c) a)
        /\ MockERC20.totalSupply (token c')
           = MockERC20.totalSupply (token c) + amount
        /\ MockERC20.allowance (token c') = MockERC20.allowance (token c)).
Proof.
  intros Hr Ha. rewrite (mint_on_reachable c Hr sender to amount Ha).
  split; intros Hb.
  - apply Z.leb_gt in Hb. rewrite Hb. reflexivity.
  - apply Z.leb_le in Hb. rewrite Hb. eexists. split; [reflexivity|]. project.
    split; [apply set_same|].
    split; [intros a Hother; now apply set_other|].
    split; reflexivity.
Qed.

End TokenProperties.

(** ** The vault *)

Section VaultProperties.

Import Solidity.
Import MockERC4626.

Variable c : Chain.

(** X5. On a state of the chain a [deposit] sent by an account
    reverts in exactly three cases, checked in this order: the assets
    exceed [maxDepositLimit] (["Exceeds max deposit"]), the sender's
    token balance is short (["Insufficient balance"]), the sender's
    allowance to the vault is short (["Insufficient allowance"]).
    Otherwise it succeeds: it never reverts with ["Transfer failed"]
    or on overflow. *)
Theorem vault_deposit_exact (sender : address) (assets : Z) (receiver : address) :
  Reachable c ->
  sender <> vaultAddress c ->
  uint256 assets ->
  (maxDepositLimit (vault c) < assets ->
   execute sender (Deposit assets receiver) c
   = Reverted (Error "Exceeds max deposit"))
  /\ (assets <= maxDepositLimit (vault c) ->
      MockERC20.balanceOf (token c) sender < assets ->
      execute sender (Deposit assets receiver) c
      = Reverted (Error "Insufficient balance"))
  /\ (assets <= maxDepositLimit (vault c) ->
      assets <= MockERC20.balanceOf (token c) sender ->
      MockERC20.allowance (token c) sender (vaultAddress c) < assets ->
      execute sender (Deposit assets receiver) c
      = Reverted (Error "Insufficient allowance"))
  /\ (assets <= maxDepositLimit (vault c) ->
      assets <= MockERC20.balanceOf (token c) sender ->
      assets <= MockERC20.allowance (token c) sender (vaultAddress c) ->
      execute sender (Deposit assets receiver) c
      = Returned (deposited c sender assets receiver)).
Proof.
  intros Hr Hsender Ha.
  rewrite (deposit_on_reachable c Hr sender assets receiver Hsender Ha).
  repeat split; intros;
    repeat match goal with
      | H : _ < _ |- _ => apply Z.leb_gt in H; rewrite H
      | H : _ <= _ |- _ => apply Z.leb_le in H; rewrite H
      end; reflexivity.
Qed.

(** X6. A [deposit] that succeeds takes exactly the assets from the
    token balance of the sender into that of the vault, uses up as
    much of the sender's allowance, credits as many shares (1:1) to
    the receiver (not to the sender) and to the share supply, and
    leaves the token supply and the limit as they were. *)
Theorem vault_deposit_effects (sender : address) (assets : Z) (receiver : address)
  (c' : Chain) :
  Reachable c ->
  sender <> vaultAddress c ->
  uint256 assets ->
  execute sender (Deposit assets receiver) c = Returned c' ->
  MockERC20.balanceOf (token c') sender
  = MockERC20.balanceOf (token c) sender - assets
  /\ MockERC20.balanceOf (token c') (vaultAddress c)
     = MockERC20.balanceOf (token c) (vaultAddress c) + assets
  /\ MockERC20.allowance (token c') sender (vaultAddress c)
     = MockERC20.allowance (token c) sender (vaultAddress c) - assets
  /\ balanceOf (vault c') receiver = balanceOf (vault c) receiver + assets
  /\ (forall a, a <> receiver -> balanceOf (vault c') a = balanceOf (vault c) a)
  /\ totalSupply (vault c') = totalSupply (vault c) + assets
  /\ MockERC20.totalSupply (token c') = MockERC20.totalSupply (token c)
  /\ maxDepositLimit (vault c') = maxDepositLimit (vault c).
Proof.
  intros Hr Hsender Ha He.
  rewrite (deposit_on_reachable c Hr sender assets receiver Hsender Ha) in He.
  returned He. unfold deposited. project.
  split; [now apply move_from|]. split; [now apply move_to|].
  split; [apply set2_same|]. split; [apply set_same|].
  split; [intros a Hother; now apply set_other|].
  repeat split.
Qed.

(** X7. On a state of the chain no [withdraw] of a positive amount
    ever succeeds, whoever sends it: it reverts with ["Insufficient
    shares"] when the owner holds fewer shares, and otherwise with
    ["Insufficient allowance"], because the vault pays out with
    [transferFrom] on itself and has approved nobody. *)
Theorem vault_withdraw_reverts (sender : address) (assets : Z)
  (receiver owner : address) :
  Reachable c ->
  uint256 assets ->
  0 < assets ->
  execute sender (Withdraw assets receiver owner) c
  = Reverted (Error (if assets <=? balanceOf (vault c) owner
                     then "Insufficient allowance"
                     else "Insufficient shares")).
Proof.
  intros Hr Ha Hpos.
  rewrite (withdraw_on_reachable c Hr sender assets receiver owner Ha).
  destruct (assets <=? balanceOf (vault c) owner); [|reflexivity].
  apply Z.leb_gt in Hpos. rewrite Hpos. reflexivity.
Qed.

(** X8. No transaction takes tokens out of the vault: after any call
    that an account sends and that does not revert, the vault holds at
    least the tokens it held before. *)
Theorem vault_tokens_never_leave (sender : address) (call : Call) (c' : Chain) :
  Reachable c ->
  sender <> vaultAddress c ->
  wellFormed call ->
  execute sender call c = Returned c' ->
  vaultAddress c' = vaultAddress c
  /\ MockERC20.balanceOf (token c) (vaultAddress c)
     <= MockERC20.balanceOf (token c') (vaultAddress c').
Proof.
  intros Hr Hsender Hw He. pose proof (reachable_sound c Hr) as Hs.
  destruct call as [to n | spender n | to n | from to n | n | n receiver
                   | n receiver owner];
    cbn [wellFormed] in Hw.
  - rewrite (mint_on_reachable c Hr sender to n Hw) in He. returned He. project.
    split; [reflexivity|]. destruct Hw. unfold set.
    destruct (Z.eqb_spec (vaultAddress c) to) as [E|E]; [rewrite <- E|]; lia.
  - unfold execute, discard, onToken in He.
    change (MockERC20.approve sender spender n (token c))
      with (Returned (A := bool * MockERC20.State)
              (true, MockERC20.with_allowance (token c)
                       (set2 (MockERC20.allowance (token c)) sender spender n)))
      in He.
    returned He. project. split; [reflexivity | lia].
  - rewrite (transfer_on_reachable c Hr sender to n Hw) in He. returned He. project.
    split; [reflexivity|]. destruct Hw.
    destruct (Z.eq_dec (vaultAddress c) to) as [E|E].
    + rewrite E in *. rewrite move_to by exact Hsender. lia.
    + rewrite move_other by congruence. lia.
  - rewrite (transferFrom_on_reachable c Hr sender from to n Hw) in He.
    returned He. project. split; [reflexivity|]. destruct Hw. sound_facts Hs.
    destruct (Z.eq_dec from (vaultAddress c)) as [->|Hfrom].
    + assert (n = 0) as -> by (pose proof (Hvault sender); lia).
      rewrite move_zero. lia.
    + destruct (Z.eq_dec (vaultAddress c) to) as [E|E].
      * rewrite E in *. rewrite move_to by congruence. lia.
      * rewrite move_other by congruence. lia.
  - unfold execute, discard, setMaxDepositLimit, store in He. returned He. project.
    split; [reflexivity | lia].
  - rewrite (deposit_on_reachable c Hr sender n receiver Hsender Hw) in He.
    returned He. unfold deposited. project. split; [reflexivity|]. destruct Hw.
    rewrite move_to by exact Hsender. lia.
  - rewrite (withdraw_on_reachable c Hr sender n receiver owner Hw) in He.
    returned He. unfold withdrawn. project. split; [reflexivity|]. destruct Hw.
    assert (n = 0) as -> by lia. rewrite move_zero. lia.
Qed.

(** X9. In every state of the chain every share is backed by a token
    the vault holds: no account holds more shares than the share
    supply, and the share supply is at most the vault's token
    balance. *)
Theorem vault_shares_backed (a : address) :
  Reachable c ->
  0 <= balanceOf (vault c) a <= totalSupply (vault c)
  /\ totalSupply (vault c) <= MockERC20.balanceOf (token c) (vaultAddress c)
  /\ MockERC20.balanceOf (token c) (vaultAddress c) <= uint256_max.
Proof.
  intros Hr. pose proof (reachable_sound c Hr) as Hs.
  pose proof (sound_balance c (vaultAddress c) Hs).
  sound_facts Hs. pose proof (Hshares a). lia.
Qed.

End VaultProperties.

(** ** What a transaction cannot do to an account *)

Section Consent.

Import Solidity.
Import MockERC4626.

Variable c : Chain.

Lemma move_decrease (m : address -> Z) (from to a : address) (n : Z) :
  0 <= n -> move m from to n a < m a -> a = from.
Proof.
  intros Hn Hlt. destruct (Z.eq_dec a from) as [E|E]; [exact E|].
  exfalso. destruct (Z.eq_dec a to) as [->|E'].
  - rewrite move_to in Hlt by congruence. lia.
  - rewrite move_other in Hlt by assumption. lia.
Qed.

(** X11. The tokens of an account leave it only with its consent: when
    a call that does not revert lowers a token balance, the account is
    the sender of the call, or the call is a [transferFrom] out of the
    account for no more than the allowance the account had given the
    sender. *)
Theorem token_balance_leaves_only_with_consent (sender : address) (call : Call)
  (c' : Chain) (a : address) :
  Reachable c ->
  wellFormed call ->
  execute sender call c = Returned c' ->
  MockERC20.balanceOf (token c') a < MockERC20.balanceOf (token c) a ->
  a = sender
  \/ exists to n,
      call = TransferFrom a to n
      /\ n <= MockERC20.allowance (token c) a sender.
Proof.
  intros Hr Hw He Hlt. pose proof (reachable_sound c Hr) as Hs.
  destruct call as [to n | spender n | to n | from to n | n | n receiver
                   | n receiver owner];
    cbn [wellFormed] in Hw; destruct Hw as [Hn _];
    unfold execute, discard, onToken in He.
  - rewrite mint_outcome in He. returned He. project. exfalso.
    unfold set in Hlt. destruct (Z.eqb_spec a to) as [->|E]; lia.
  - change (MockERC20.approve sender spender n (token c))
      with (Returned (A := bool * MockERC20.State)
              (true, MockERC20.with_allowance (token c)
                       (set2 (MockERC20.allowance (token c)) sender spender n)))
      in He.
    returned He. project. lia.
  - rewrite transfer_outcome in He. returned He. project.
    left. exact (move_decrease _ _ _ _ _ Hn Hlt).
  - rewrite transferFrom_outcome in He. returned He. project.
    right. pose proof (move_decrease _ _ _ _ _ Hn Hlt) as ->.
    exists to, n. split; [reflexivity | assumption].
  - unfold setMaxDepositLimit, store in He. returned He. project. lia.
  - rewrite deposit_outcome in He. returned He. unfold deposited in Hlt. project.
    left. exact (move_decrease _ _ _ _ _ Hn Hlt).
  - rewrite withdraw_outcome in He. returned He. unfold withdrawn in Hlt. project.
    exfalso. sound_facts Hs.
    assert (n = 0) as -> by (pose proof (Hvault (vaultAddress c)); lia).
    rewrite move_zero in Hlt. lia.
Qed.

(** X12. Only its owner raises an allowance: when a call that does not
    revert leaves an allowance higher than it was, the call is an
    [approve] for that spender sent by that owner. *)
Theorem token_allowance_raised_only_by_owner (sender : address) (call : Call)
  (c' : Chain) (owner spender : address) :
  wellFormed call ->
  execute sender call c = Returned c' ->
  MockERC20.allowance (token c) owner spender
  < MockERC20.allowance (token c') owner spender ->
  sender = owner
  /\ call = Approve spender (MockERC20.allowance (token c') owner spender).
Proof.
  intros Hw He Hlt.
  destruct call as [to n | spender' n | to n | from to n | n | n receiver
                   | n receiver owner'];
    cbn [wellFormed] in Hw; destruct Hw as [Hn _];
    unfold execute, discard, onToken in He.
  - rewrite mint_outcome in He. returned He. project. lia.
  - change (MockERC20.approve sender spender' n (token c))
      with (Returned (A := bool * MockERC20.State)
              (true, MockERC20.with_allowance (token c)
                       (set2 (MockERC20.allowance (token c)) sender spender' n)))
      in He.
    returned He. project. unfold set2 in *.
    destruct (Z.eqb_spec owner sender) as [->|E],
             (Z.eqb_spec spender spender') as [->|E']; cbn [andb] in *;
      try lia.
    split; reflexivity.
  - rewrite transfer_outcome in He. returned He. project. lia.
  - rewrite transferFrom_outcome in He. returned He. project. exfalso.
    unfold set2 in Hlt.
    destruct (Z.eqb_spec owner from) as [->|E],
             (Z.eqb_spec spender sender) as [->|E']; cbn [andb] in *; lia.
  - unfold setMaxDepositLimit, store in He. returned He. project. lia.
  - rewrite deposit_outcome in He. returned He. unfold deposited in Hlt. project.
    exfalso. unfold set2 in Hlt.
    destruct (Z.eqb_spec owner sender) as [->|E],
             (Z.eqb_spec spender (vaultAddress c)) as [->|E']; cbn [andb] in *; lia.
  - rewrite withdraw_outcome in He. returned He. unfold withdrawn in Hlt. project.
    exfalso. unfold set2 in Hlt.
    destruct (Z.eqb_spec owner (vaultAddress c)) as [->|E],
             (Z.eqb_spec spender (vaultAddress c)) as [->|E']; cbn [andb] in *; lia.
Qed.

End Consent.

(** ** The pre-validation of [deposit] against the vault *)

Section Prevalidation.

Context {World RpcError : Type}.
Variable client : PublicClient World RpcError.
Variable addressOf : Hex -> Solidity.address.
Variable p : DepositParams.
Variable c : MockERC4626.Chain.

(** X10. Let the client answer the reads of [deposit] with the views
    of a state of the chain, for a request whose vault is the vault of
    the chain and whose wallet is an account.  Then [deposit] raises
    one of its three errors exactly when the vault's own
    [deposit(amount, wallet)], sent by the wallet, would revert: the
    pre-validation rejects no deposit the vault would accept, and
    lets through none it would refuse. *)
Theorem prevalidation_agrees_with_vault (w0 w1 w2 w3 w4 : World) (assetAddress : Hex) :
  MockERC4626.Reachable c ->
  addressOf (vault p) = MockERC4626.vaultAddress c ->
  addressOf (wallet p) <> MockERC4626.vaultAddress c ->
  Solidity.uint256 (amount p) ->
  readContract client (assetParams p) w0 = (Fulfilled assetAddress, w1) ->
  readContract client (balanceOfParams assetAddress p) w1
  = (Fulfilled (MockERC20.balanceOf (MockERC4626.token c) (addressOf (wallet p))), w2) ->
  readContract client (allowanceParams assetAddress p) w2
  = (Fulfilled (MockERC20.allowance (MockERC4626.token c)
                  (addressOf (wallet p)) (addressOf (vault p))), w3) ->
  readContract client (maxDepositParams p) w3
  = (Fulfilled (MockERC4626.maxDeposit (addressOf (wallet p)) c), w4) ->
  ((exists e, fst (deposit client p w0) = Rejected (Raised e))
   <-> (exists f,
          MockERC4626.execute (addressOf (wallet p))
            (MockERC4626.Deposit (amount p) (addressOf (wallet p))) c
          = Solidity.Reverted f))
  /\ ((forall e, fst (deposit client p w0) <> Rejected (Raised e)) ->
      MockERC4626.execute (addressOf (wallet p))
        (MockERC4626.Deposit (amount p) (addressOf (wallet p))) c
      = Solidity.Returned
          (MockERC4626.deposited c (addressOf (wallet p)) (amount p)
             (addressOf (wallet p)))).
Proof.
  intros Hr Hv Hw Ha H1 H2 H3 H4.
  rewrite (deposit_on_reachable c Hr _ _ _ Hw Ha).
  unfold MockERC4626.maxDeposit in H4. rewrite Hv in H3.
  courses client p w0; cbn [fst];
    destruct (Z.leb_spec (amount p)
                (MockERC4626.maxDepositLimit (MockERC4626.vault c)));
    destruct (Z.leb_spec (amount p)
                (MockERC20.balanceOf (MockERC4626.token c) (addressOf (wallet p))));
    destruct (Z.leb_spec (amount p)
                (MockERC20.allowance (MockERC4626.token c) (addressOf (wallet p))
                   (MockERC4626.vaultAddress c)));
    try (exfalso; lia);
    (split;
     [ split; intros [x Hx];
       first [ discriminate Hx | eexists; reflexivity ]
     | intros Hno;
       first [ reflexivity
             | exfalso; eapply Hno; reflexivity ] ]).
Qed.

End Prevalidation.

(** ** The contract properties on the chain of the tests *)

Ltac is_uint256 := split; vm_compute; discriminate.

(** X1 on the funded chain. *)
Lemma token_supply_is_sum_of_balances_witness :
  MockERC4626.SumOfBalances
    (MockERC20.balanceOf (MockERC4626.token Fixture.funded))
    (MockERC20.totalSupply (MockERC4626.token Fixture.funded))
  /\ MockERC20.totalSupply (MockERC4626.token Fixture.funded) = 1000.
Proof.
  split.
  - exact (proj1 (token_supply_is_sum_of_balances Fixture.funded funded_reachable)).
  - reflexivity.
Defined.

(** X2: 2000 tokens are more than the account holds; 100 are not. *)
Lemma token_transfer_exact_witness :
  MockERC4626.execute Fixture.account (MockERC4626.Transfer 7 2000) Fixture.funded
  = Solidity.Reverted (Solidity.Error "Insufficient balance")
  /\ exists c',
      MockERC4626.execute Fixture.account (MockERC4626.Transfer 7 100) Fixture.funded
      = Solidity.Returned c'
      /\ MockERC20.balanceOf (MockERC4626.token c') 7 = 100.
Proof.
  split.
  - refine (proj1 (token_transfer_exact Fixture.funded Fixture.account 7 2000
                     funded_reachable _) _).
    + is_uint256.
    + vm_compute. reflexivity.
  - destruct (proj2 (token_transfer_exact Fixture.funded Fixture.account 7 100
                       funded_reachable ltac:(is_uint256)))
      as (c' & He & Hmove & _).
    + vm_compute. discriminate.
    + exists c'. split; [exact He|].
      rewrite (proj2 (Hmove ltac:(vm_compute; discriminate))). reflexivity.
Defined.

(** X3: the vault, approved for 500 by the account, pulls 100 but
    neither 600 nor 2000. *)
Lemma token_transferFrom_exact_witness :
  MockERC4626.execute Fixture.vaultAddress
    (MockERC4626.TransferFrom Fixture.account 7 2000) Fixture.funded
  = Solidity.Reverted (Solidity.Error "Insufficient balance")
  /\ MockERC4626.execute Fixture.vaultAddress
       (MockERC4626.TransferFrom Fixture.account 7 600) Fixture.funded
     = Solidity.Reverted (Solidity.Error "Insufficient allowance")
  /\ exists c',
      MockERC4626.execute Fixture.vaultAddress
        (MockERC4626.TransferFrom Fixture.account 7 100) Fixture.funded
      = Solidity.Returned c'
      /\ MockERC20.allowance (MockERC4626.token c') Fixture.account Fixture.vaultAddress
         = 400.
Proof.
  split; [|split].
  - refine (proj1 (token_transferFrom_exact Fixture.funded Fixture.vaultAddress
                     Fixture.account 7 2000 funded_reachable _) _).
    + is_uint256.
    + vm_compute. reflexivity.
  - refine (proj1 (proj2 (token_transferFrom_exact Fixture.funded Fixture.vaultAddress
                            Fixture.account 7 600 funded_reachable _)) _ _).
    + is_uint256.
    + vm_compute. discriminate.
    + vm_compute. reflexivity.
  - destruct (proj2 (proj2 (token_transferFrom_exact Fixture.funded
                              Fixture.vaultAddress Fixture.account 7 100
                              funded_reachable ltac:(is_uint256))))
      as (c' & He & Hal & _).
    + vm_compute. discriminate.
    + vm_compute. discriminate.
    + exists c'. split; [exact He|]. rewrite Hal. reflexivity.
Defined.

(** X4: an account that is not the deployer mints 1 token; minting
    [2^256 - 1] more than the 1000 there are overflows the supply. *)
Lemma token_mint_exact_witness :
  MockERC4626.execute 7 (MockERC4626.Mint 7 Solidity.uint256_max) Fixture.funded
  = Solidity.Reverted (Solidity.Panic 0x11)
  /\ exists c',
      MockERC4626.execute 7 (MockERC4626.Mint 7 1) Fixture.funded
      = Solidity.Returned c'
      /\ MockERC20.totalSupply (MockERC4626.token c') = 1001.
Proof.
  split.
  - refine (proj1 (token_mint_exact Fixture.funded 7 7 Solidity.uint256_max
                     funded_reachable _) _).
    + is_uint256.
    + vm_compute. reflexivity.
  - destruct (proj2 (token_mint_exact Fixture.funded 7 7 1
                       funded_reachable ltac:(is_uint256)))
      as (c' & He & _ & _ & Hts & _).
    + vm_compute. discriminate.
    + exists c'. split; [exact He|]. rewrite Hts. reflexivity.
Defined.

(** X5: the four outcomes of a deposit, on the chain of the tests. *)
Lemma vault_deposit_exact_witness :
  MockERC4626.execute Fixture.account (MockERC4626.Deposit 100 Fixture.account)
    Fixture.capped
  = Solidity.Reverted (Solidity.Error "Exceeds max deposit")
  /\ MockERC4626.execute Fixture.account (MockERC4626.Deposit 2000 Fixture.account)
       Fixture.funded
     = Solidity.Reverted (Solidity.Error "Insufficient balance")
  /\ MockERC4626.execute Fixture.account (MockERC4626.Deposit 600 Fixture.account)
       Fixture.funded
     = Solidity.Reverted (Solidity.Error "Insufficient allowance")
  /\ MockERC4626.execute Fixture.account (MockERC4626.Deposit 100 Fixture.account)
       Fixture.funded
     = Solidity.Returned
         (MockERC4626.deposited Fixture.funded Fixture.account 100 Fixture.account).
Proof.
  split; [|split; [|split]].
  - refine (proj1 (vault_deposit_exact Fixture.capped Fixture.account 100
                     Fixture.account capped_reachable _ _) _).
    + vm_compute. discriminate.
    + is_uint256.
    + vm_compute. reflexivity.
  - refine (proj1 (proj2 (vault_deposit_exact Fixture.funded Fixture.account 2000
                            Fixture.account funded_reachable _ _)) _ _).
    + vm_compute. discriminate.
    + is_uint256.
    + vm_compute. discriminate.
    + vm_compute. reflexivity.
  - refine (proj1 (proj2 (proj2 (vault_deposit_exact Fixture.funded Fixture.account
                                   600 Fixture.account funded_reachable _ _)))
              _ _ _).
    + vm_compute. discriminate.
    + is_uint256.
    + vm_compute. discriminate.
    + vm_compute. discriminate.
    + vm_compute. reflexivity.
  - refine (proj2 (proj2 (proj2 (vault_deposit_exact Fixture.funded Fixture.account
                                   100 Fixture.account funded_reachable _ _)))
              _ _ _).
    + vm_compute. discriminate.
    + is_uint256.
    + vm_compute. discriminate.
    + vm_compute. discriminate.
    + vm_compute. discriminate.
Defined.

(** X6: the deposit of 100 of the first test. *)
Lemma vault_deposit_effects_witness :
  MockERC20.balanceOf (MockERC4626.token Fixture.invested) Fixture.account
  = MockERC20.balanceOf (MockERC4626.token Fixture.funded) Fixture.account - 100
  /\ MockERC4626.balanceOf (MockERC4626.vault Fixture.invested) Fixture.account
     = MockERC4626.balanceOf (MockERC4626.vault Fixture.funded) Fixture.account + 100.
Proof.
  destruct (vault_deposit_effects Fixture.funded Fixture.account 100 Fixture.account
              Fixture.invested funded_reachable)
    as (H1 & _ & _ & H4 & _).
  - vm_compute. discriminate.
  - is_uint256.
  - vm_compute. reflexivity.
  - exact (conj H1 H4).
Defined.

(** X7: the account cannot take back 10 of the 100 it deposited. *)
Lemma vault_withdraw_reverts_witness :
  MockERC4626.execute Fixture.account
    (MockERC4626.Withdraw 10 Fixture.account Fixture.account) Fixture.invested
  = Solidity.Reverted
      (Solidity.Error
         (if 10 <=? MockERC4626.balanceOf (MockERC4626.vault Fixture.invested)
                      Fixture.account
          then "Insufficient allowance" else "Insufficient shares")).
Proof.
  apply (vault_withdraw_reverts Fixture.invested Fixture.account 10
           Fixture.account Fixture.account invested_reachable).
  - is_uint256.
  - reflexivity.
Defined.

(** X8 on the deposit of the first test. *)
Lemma vault_tokens_never_leave_witness :
  MockERC4626.vaultAddress Fixture.invested = MockERC4626.vaultAddress Fixture.funded
  /\ MockERC20.balanceOf (MockERC4626.token Fixture.funded)
       (MockERC4626.vaultAddress Fixture.funded)
     <= MockERC20.balanceOf (MockERC4626.token Fixture.invested)
          (MockERC4626.vaultAddress Fixture.invested).
Proof.
  apply (vault_tokens_never_leave Fixture.funded Fixture.account
           (MockERC4626.Deposit 100 Fixture.account) Fixture.invested
           funded_reachable).
  - vm_compute. discriminate.
  - is_uint256.
  - vm_compute. reflexivity.
Defined.

(** X9 after the deposit of the first test. *)
Lemma vault_shares_backed_witness :
  0 <= MockERC4626.balanceOf (MockERC4626.vault Fixture.invested) Fixture.account
    <= MockERC4626.totalSupply (MockERC4626.vault Fixture.invested)
  /\ MockERC4626.totalSupply (MockERC4626.vault Fixture.invested)
     <= MockERC20.balanceOf (MockERC4626.token Fixture.invested)
          (MockERC4626.vaultAddress Fixture.invested)
  /\ MockERC20.balanceOf (MockERC4626.token Fixture.invested)
       (MockERC4626.vaultAddress Fixture.invested) <= Solidity.uint256_max.
Proof.
  exact (vault_shares_backed Fixture.invested Fixture.account invested_reachable).
Defined.

(** X10 on the first scenario of the tests: [deposit] raises no error
    and the vault accepts the deposit. *)
Lemma prevalidation_agrees_with_vault_witness :
  MockERC4626.execute (Fixture.addressOf (wallet (Mock.request 100)))
    (MockERC4626.Deposit (amount (Mock.request 100))
       (Fixture.addressOf (wallet (Mock.request 100)))) Fixture.funded
  = Solidity.Returned
      (MockERC4626.deposited Fixture.funded
         (Fixture.addressOf (wallet (Mock.request 100))) (amount (Mock.request 100))
         (Fixture.addressOf (wallet (Mock.request 100)))).
Proof.
  refine (proj2 (prevalidation_agrees_with_vault Mock.client Fixture.addressOf
                   (Mock.request 100) Fixture.funded
                   (Mock.chain 1000 500 Encoder.maxUint256 21000 [])
                   _ _ _ _ Mock.tokenAddress funded_reachable _ _ _ _ _ _ _) _).
  - reflexivity.
  - vm_compute. discriminate.
  - is_uint256.
  - reflexivity.
  - vm_compute. reflexivity.
  - vm_compute. reflexivity.
  - vm_compute. reflexivity.
  - intros e. vm_compute. discriminate.
Defined.

(** X11: the vault, approved for 500, pulls 100 tokens out of the
    account. *)
Lemma token_balance_leaves_only_with_consent_witness :
  Fixture.account = Fixture.vaultAddress
  \/ exists to n,
      MockERC4626.TransferFrom Fixture.account 7 100
      = MockERC4626.TransferFrom Fixture.account to n
      /\ n <= MockERC20.allowance (MockERC4626.token Fixture.funded)
                Fixture.account Fixture.vaultAddress.
Proof.
  apply (token_balance_leaves_only_with_consent Fixture.funded Fixture.vaultAddress
           (MockERC4626.TransferFrom Fixture.account 7 100)
           (Fixture.mined Fixture.vaultAddress
              (MockERC4626.TransferFrom Fixture.account 7 100) Fixture.funded)
           Fixture.account funded_reachable).
  - is_uint256.
  - vm_compute. reflexivity.
  - vm_compute. reflexivity.
Defined.

(** X12: the approval of the first test. *)
Lemma token_allowance_raised_only_by_owner_witness :
  Fixture.account = Fixture.account
  /\ MockERC4626.Approve Fixture.vaultAddress 500
     = MockERC4626.Approve Fixture.vaultAddress
         (MockERC20.allowance (MockERC4626.token Fixture.funded)
            Fixture.account Fixture.vaultAddress).
Proof.
  apply (token_allowance_raised_only_by_owner Fixture.minted Fixture.account
           (MockERC4626.Approve Fixture.vaultAddress 500) Fixture.funded
           Fixture.account Fixture.vaultAddress).
  - is_uint256.
  - vm_compute. reflexivity.
  - vm_compute. reflexivity.
Defined.
